(** * PID_Furnace, PythonScripts/main.py: the commit-schedule script.
    A shallow embedding of [generate_commit_dates], [make_commit] and
    [main], together with the part of Python's [datetime], [random],
    [subprocess] and [os] modules that the script relies on, and the
    properties of the schedule and of its replay. *)

From Stdlib Require Import ZArith String Ascii.
From stdpp Require Import base gmap strings list sorting.
From Equations Require Import Equations.

Local Open Scope Z_scope.

(** ** Exceptions and the state-and-error monad *)

(** The exceptions the script can raise. *)
Inductive exn : Set :=
| OverflowError        (* date arithmetic left [date.min .. date.max] *)
| CalledProcessError   (* [subprocess.run(..., check=True)]: non-zero exit *)
| FileNotFoundError    (* [subprocess.run]: the executable does not exist *)
| OSError.             (* [open(filename, "a")] / [write] failed *)

Inductive result (A : Type) : Type :=
| Return (a : A)
| Raise (e : exn).
Arguments Return {A} a.
Arguments Raise {A} e.

(** A computation over a state [S]: it ends with a value or an exception,
    and in both cases with the state it reached. *)
Definition M (S A : Type) : Type := S → result A * S.

Definition ret {S A} (a : A) : M S A := λ s, (Return a, s).

Definition bind {S A B} (m : M S A) (k : A → M S B) : M S B :=
  λ s, match m s with
       | (Return a, s') => k a s'
       | (Raise e, s') => (Raise e, s')
       end.

Definition raise {S A} (e : exn) : M S A := λ s, (Raise e, s).

(** A pure computation that may raise, run inside [M]. *)
Definition lift_result {S A} (r : result A) : M S A := λ s, (r, s).

(** [try: m except: ...]: the outcome of [m] is handed to the caller. *)
Definition try {S A} (m : M S A) : M S (result A) :=
  λ s, let '(r, s') := m s in (Return r, s').

(** A computation on a component [T] of the state [S]. *)
Definition zoom {S T A} (get : S → T) (set : T → S → S) (m : M T A) : M S A :=
  λ s, let '(r, t') := m (get s) in (r, set t' s).

Notation "'let*' x ':=' m 'in' k" := (bind m (λ x, k))
  (at level 10, x name, m at level 100, k at level 200, only parsing).

(** [for x in l: body(x)] *)
Fixpoint for_each {S A} (l : list A) (body : A → M S unit) : M S unit :=
  match l with
  | [] => ret ()
  | x :: l' => let* _ := body x in for_each l' body
  end.

(** ** Python's [datetime] module *)

Module Calendar.

(** A [datetime.date] is represented by its proleptic Gregorian ordinal
    ([date.toordinal()]): day 1 is 0001-01-01. *)
Definition MINORDINAL : Z := 1.
Definition MAXORDINAL : Z := 3652059.   (* date(9999, 12, 31).toordinal() *)

Definition valid_date (d : Z) : Prop := MINORDINAL ≤ d ≤ MAXORDINAL.

Definition is_leap (year : Z) : bool :=
  (year mod 4 =? 0) && (negb (year mod 100 =? 0) || (year mod 400 =? 0)).

Definition days_before_year (year : Z) : Z :=
  let y := year - 1 in y * 365 + y / 4 - y / 100 + y / 400.

Definition DAYS_IN_MONTH : list Z :=
  [31; 28; 31; 30; 31; 30; 31; 31; 30; 31; 30; 31].

Definition days_before_month (year month : Z) : Z :=
  foldr Z.add 0 (take (Z.to_nat (month - 1)) DAYS_IN_MONTH)
  + (if (2 <? month) && is_leap year then 1 else 0).

(** [datetime.date(year, month, day)] *)
Definition date (year month day : Z) : Z :=
  days_before_year year + days_before_month year month + day.

(** [_ord2ymd]: the (year, month, day) of an ordinal. *)
Definition ord2ymd (n : Z) : Z * Z * Z :=
  let n := n - 1 in
  let n400 := n / 146097 in let n := n mod 146097 in
  let n100 := n / 36524 in let n := n mod 36524 in
  let n4 := n / 1461 in let n := n mod 1461 in
  let n1 := n / 365 in let n := n mod 365 in
  let year := n400 * 400 + 1 + n100 * 100 + n4 * 4 + n1 in
  if (n1 =? 4) || (n100 =? 4) then (year - 1, 12, 31)
  else
    let leapyear := (n1 =? 3) && (negb (n4 =? 24) || (n100 =? 3)) in
    let month := Z.shiftr (n + 50) 5 in
    let preceding :=
      days_before_month 1 month
      + (if (2 <? month) && leapyear then 1 else 0) in
    if n <? preceding then
      let month := month - 1 in
      let preceding :=
        preceding - (nth (Z.to_nat (month - 1)) DAYS_IN_MONTH 0
                     + (if (month =? 2) && leapyear then 1 else 0)) in
      (year, month, n - preceding + 1)
    else (year, month, n - preceding + 1).

(** [date + timedelta(days=n)]: [OverflowError] outside the supported
    range of dates. *)
Definition date_add (d days : Z) : result Z :=
  let o := d + days in
  if (MINORDINAL <=? o) && (o <=? MAXORDINAL) then Return o
  else Raise OverflowError.

(** A [datetime.datetime] (naive): a date and a time of day. *)
Record datetime : Set := mk_datetime {
  dt_date : Z;          (* [.date()], as an ordinal *)
  dt_hour : Z;
  dt_minute : Z;
  dt_second : Z;
  dt_microsecond : Z
}.

(** [datetime.datetime.combine(day, datetime.time(hour, minute, second))] *)
Definition combine (day hour minute second : Z) : datetime :=
  mk_datetime day hour minute second 0.

(** The instant at which a date starts. *)
Definition midnight (day : Z) : datetime := combine day 0 0 0.

(** Comparison of datetimes is the lexicographic comparison of their
    fields, as in [datetime._cmp]. *)
Definition lex (c1 c2 : comparison) : comparison :=
  match c1 with Eq => c2 | _ => c1 end.

Definition datetime_cmp (a b : datetime) : comparison :=
  lex (dt_date a ?= dt_date b)
    (lex (dt_hour a ?= dt_hour b)
      (lex (dt_minute a ?= dt_minute b)
        (lex (dt_second a ?= dt_second b)
             (dt_microsecond a ?= dt_microsecond b)))).

Definition datetime_le (a b : datetime) : Prop := datetime_cmp a b ≠ Gt.
Definition datetime_lt (a b : datetime) : Prop := datetime_cmp a b = Lt.

(** Decimal digits, for [strftime] and [isoformat]. *)
Definition digit (d : Z) : string :=
  String (ascii_of_nat (48 + Z.to_nat (d mod 10))) EmptyString.

Fixpoint decimal_fuel (fuel : nat) (n : Z) : string :=
  match fuel with
  | O => EmptyString
  | S fuel' => if n <? 10 then digit n
               else (decimal_fuel fuel' (n / 10) +:+ digit n)%string
  end.

(** [str(n)] for [0 ≤ n]; a number below [10^20] has at most 20 digits. *)
Definition decimal (n : Z) : string := decimal_fuel 20 n.

Fixpoint zeros (n : nat) : string :=
  match n with
  | O => EmptyString
  | S n' => String "0" (zeros n')
  end.

(** [s.rjust(width, "0")] *)
Definition zero_pad (width : nat) (s : string) : string :=
  (zeros (width - String.length s) +:+ s)%string.

Definition two_digits (n : Z) : string := zero_pad 2 (decimal n).

(** [date.isoformat()], also [str(date)]: YYYY-MM-DD. *)
Definition isoformat (d : Z) : string :=
  let '(y, m, dd) := ord2ymd d in
  (zero_pad 4 (decimal y) +:+ "-" +:+ two_digits m +:+ "-" +:+ two_digits dd)%string.

(** [dt.strftime("%Y-%m-%dT%H:%M:%S")]; [%Y] is the year without
    padding, as the C library prints it. *)
Definition strftime (dt : datetime) : string :=
  let '(y, m, dd) := ord2ymd (dt_date dt) in
  (decimal y +:+ "-" +:+ two_digits m +:+ "-" +:+ two_digits dd +:+ "T"
   +:+ two_digits (dt_hour dt) +:+ ":" +:+ two_digits (dt_minute dt)
   +:+ ":" +:+ two_digits (dt_second dt))%string.

End Calendar.
Import Calendar.

(** ** Python's [random] module *)

Module Random.

(** The generator: the raw values it will deliver, and how many of them
    have been consumed.  Every sequence of outcomes of the calls below is
    the behaviour of some tape. *)
Record rng_state : Type := mk_rng {
  tape : nat → Z;
  drawn : nat
}.

(** [random.randint(a, b)]: an integer N with a ≤ N ≤ b (the script only
    calls it with constants a ≤ b). *)
Definition randint (a b : Z) : M rng_state Z :=
  λ st, (Return (a + tape st (drawn st) `mod` (b - a + 1)),
         mk_rng (tape st) (S (drawn st))).

End Random.
Import Random.

(** ** [generate_commit_dates] *)

(** Lines 28-38: one commit of the week that starts at [current]. *)
Definition draw_commit (current : Z) (end_date : datetime) : M rng_state datetime :=
  let* day_offset := randint 0 6 in
  let* commit_day := lift_result (date_add current day_offset) in
  let commit_day :=
    if dt_date end_date <? commit_day then dt_date end_date else commit_day in
  let* hour := randint 9 20 in
  let* minute := randint 0 59 in
  let* second := randint 0 59 in
  ret (combine commit_day hour minute second).

(** Lines 27-39: [for _ in range(commits_this_week)], appending to
    [commit_dates]. *)
Fixpoint week_commits (n : nat) (current : Z) (end_date : datetime)
    (commit_dates : list datetime) : M rng_state (list datetime) :=
  match n with
  | O => ret commit_dates
  | S n' =>
      let* commit_datetime := draw_commit current end_date in
      week_commits n' current end_date (commit_dates ++ [commit_datetime])
  end.

(** Lines 25-39: the body of the weekly loop, up to the increment. *)
Definition week (current : Z) (end_date : datetime)
    (commit_dates : list datetime) : M rng_state (list datetime) :=
  let* commits_this_week := randint 3 5 in
  week_commits (Z.to_nat commits_this_week) current end_date commit_dates.

(** [inspect x] lets a definition branch on [x] and keep the equation. *)
Definition inspect {A : Type} (x : A) : { y : A | x = y } := exist _ x eq_refl.

(** Lines 24-41: [while current < end_date.date()].  The distance to the
    end date decreases by 7 at each turn. *)
Equations? weekly_loop (end_date : datetime) (current : Z)
    (commit_dates : list datetime) (st : rng_state)
    : result (list datetime) * rng_state
    by wf (Z.to_nat (dt_date end_date - current)) lt :=
  weekly_loop end_date current commit_dates st
    with inspect (current <? dt_date end_date) := {
    | exist _ false _ => (Return commit_dates, st)
    | exist _ true Hlt with week current end_date commit_dates st := {
        | (Raise e, st') => (Raise e, st')
        | (Return commit_dates', st') with inspect (date_add current 7) := {
            | exist _ (Raise e) _ => (Raise e, st')
            | exist _ (Return next) Hnext =>
                weekly_loop end_date next commit_dates' st' } } }.
Proof.
  unfold date_add in Hnext.
  destruct (_ && _); inversion Hnext; subst. lia.
Qed.

(** [commit_dates.sort()] *)
#[global] Instance datetime_le_dec : RelDecision datetime_le.
Proof. intros a b. unfold datetime_le. apply _. Defined.

Definition sort (l : list datetime) : list datetime := merge_sort datetime_le l.

Definition generate_commit_dates (start_date : Z) (end_date : datetime)
    : M rng_state (list datetime) :=
  let* commit_dates := weekly_loop end_date start_date [] in
  ret (sort commit_dates).

(** ** The process and its surroundings *)

(** How a call of an external program ends. *)
Inductive tool_status : Set :=
| Exited (code : Z)       (* the program ran and returned this exit status *)
| NoSuchProgram.          (* the executable could not be started *)

#[global] Instance tool_status_eq_dec : EqDecision tool_status.
Proof. solve_decision. Defined.

(** What the process did to the outside, in the order it did it. *)
Inductive event : Type :=
| Appended (filename text : string)
| AppendFailed (filename : string)
| Ran (argv : list string) (env : gmap string string) (status : tool_status).

Record world : Type := mk_world {
  heap : gmap nat (gmap string string);  (* the dict objects, by reference *)
  os_environ : nat;                      (* the dict that [os.environ] is *)
  files : gmap string string;            (* the working directory *)
  stdout : list string;
  history : list event;                  (* oldest first *)
  random : rng_state;                    (* the state of [random] *)
  clock : datetime;                      (* what [datetime.now()] reads *)
  tool : nat → tool_status;  (* how a program called as the k-th event ends *)
  disk : nat → bool;         (* whether an append made as the k-th event succeeds *)
  torn : nat → option nat    (* what an append that fails as the k-th event
                                leaves: [None] when the file could not be
                                opened, [Some m] when it was opened and the
                                first [m] characters reached it *)
}.

Definition set_heap (h : gmap nat (gmap string string)) (w : world) : world :=
  mk_world h (os_environ w) (files w) (stdout w) (history w) (random w)
    (clock w) (tool w) (disk w) (torn w).

Definition set_files (f : gmap string string) (w : world) : world :=
  mk_world (heap w) (os_environ w) f (stdout w) (history w) (random w)
    (clock w) (tool w) (disk w) (torn w).

Definition set_stdout (o : list string) (w : world) : world :=
  mk_world (heap w) (os_environ w) (files w) o (history w) (random w)
    (clock w) (tool w) (disk w) (torn w).

Definition set_history (h : list event) (w : world) : world :=
  mk_world (heap w) (os_environ w) (files w) (stdout w) h (random w)
    (clock w) (tool w) (disk w) (torn w).

Definition set_random (r : rng_state) (w : world) : world :=
  mk_world (heap w) (os_environ w) (files w) (stdout w) (history w) r
    (clock w) (tool w) (disk w) (torn w).

(** [os.environ] exists as an object. *)
Definition world_ok (w : world) : Prop := is_Some (heap w !! os_environ w).

(** The contents of the dict [r] refers to. *)
Definition deref (w : world) (r : nat) : gmap string string := heap w !!! r.

(** [d.copy()]: a new dict object with the same items. *)
Definition dict_copy (r : nat) : M world nat :=
  λ w, let r' := fresh (dom (heap w)) in
       (Return r', set_heap (<[r' := deref w r]> (heap w)) w).

(** [d[key] = value]: the object itself is changed. *)
Definition dict_setitem (r : nat) (key value : string) : M world unit :=
  λ w, (Return (), set_heap (<[r := <[key := value]> (deref w r)]> (heap w)) w).

(** [print(line)] *)
Definition print (line : string) : M world unit :=
  λ w, (Return (), set_stdout (stdout w ++ [line]) w).

(** The directory after an append of [text] to [filename] that failed.
    When [open] itself fails nothing changes.  When the file was opened it
    exists from then on (mode "a" creates it), and it holds whatever part
    of [text] was written before the failure. *)
Definition torn_append (part : option nat) (filename text : string)
    (f : gmap string string) : gmap string string :=
  match part with
  | None => f
  | Some m =>
      <[filename := (default EmptyString (f !! filename)
                     +:+ substring 0 m text)%string]> f
  end.

(** [with open(filename, "a") as f: f.write(text)] *)
Definition append_file (filename text : string) : M world unit :=
  λ w, if disk w (length (history w)) then
         (Return (),
          set_history (history w ++ [Appended filename text])
            (set_files (<[filename := (default EmptyString (files w !! filename)
                                       +:+ text)%string]> (files w)) w))
       else (Raise OSError,
             set_history (history w ++ [AppendFailed filename])
               (set_files (torn_append (torn w (length (history w)))
                             filename text (files w)) w)).

(** [subprocess.run(argv, env=env, check=True)]; without [env] the child
    gets the environment of the process, [os.environ]. *)
Definition subprocess_run (argv : list string) (env : option nat) : M world unit :=
  λ w, let status := tool w (length (history w)) in
       let child_env := deref w (default (os_environ w) env) in
       let w' := set_history (history w ++ [Ran argv child_env status]) w in
       match status with
       | Exited 0 => (Return (), w')
       | Exited _ => (Raise CalledProcessError, w')
       | NoSuchProgram => (Raise FileNotFoundError, w')
       end.

(** Reading a global of the process. *)
Definition read {S A} (get : S → A) : M S A := λ s, (Return (get s), s).

(** [datetime.datetime.now()] *)
Definition datetime_now : M world datetime := read clock.

Definition nl : string := String (ascii_of_nat 10) EmptyString.

(** ** [make_commit] and [main] *)

Definition make_commit (commit_date : datetime) : M world unit :=
  let commit_date_str := strftime commit_date in
  let filename := "dummy.txt"%string in
  let* _ := append_file filename
              ("Fake commit on " +:+ commit_date_str +:+ nl)%string in
  let* _ := subprocess_run ["git"; "add"; filename]%string None in
  let* environ := read os_environ in
  let* env := dict_copy environ in
  let* _ := dict_setitem env "GIT_AUTHOR_DATE" commit_date_str in
  let* _ := dict_setitem env "GIT_COMMITTER_DATE" commit_date_str in
  let commit_message := ("Fake commit for " +:+ commit_date_str)%string in
  let* _ := subprocess_run
              ["git"; "commit"; "--allow-empty"; "-m"; commit_message]%string
              (Some env) in
  print ("Committed: " +:+ commit_message)%string.

(** Lines 84-91 of [main]: the schedule is replayed, then published. *)
Definition replay (commit_dates : list datetime) : M world unit :=
  let* _ := for_each commit_dates make_commit in
  let* _ := subprocess_run ["git"; "push"]%string None in
  print "All fake commits have been pushed.".

Definition main : M world unit :=
  let* inside := try (subprocess_run
                        ["git"; "rev-parse"; "--is-inside-work-tree"]%string None) in
  match inside with
  | Raise CalledProcessError =>
      print "Error: This script must be run inside a Git repository."
  | Raise e => raise e
  | Return _ =>
      let start_date := date 2024 6 1 in
      let* end_date := datetime_now in
      let* commit_dates :=
        zoom random set_random (generate_commit_dates start_date end_date) in
      let* _ := print ("Generating " +:+ decimal (Z.of_nat (length commit_dates))
                       +:+ " fake commits from " +:+ isoformat start_date
                       +:+ " to " +:+ isoformat (dt_date end_date) +:+ "...")%string in
      replay commit_dates
  end.

(** ** What the repository has recorded *)

(** A commit as the version-control tool records it: the dates are those
    of [GIT_AUTHOR_DATE] and [GIT_COMMITTER_DATE] when the environment of
    the call sets them, and the tool's own clock ([None]) otherwise. *)
Record commit : Type := mk_commit {
  commit_argv : list string;
  authored_at : option string;
  committed_at : option string
}.

Definition commit_of_event (e : event) : option commit :=
  match e with
  | Ran argv env (Exited 0) =>
      if bool_decide (take 2 argv = ["git"; "commit"]%string)
      then Some (mk_commit argv (env !! "GIT_AUTHOR_DATE"%string)
                                (env !! "GIT_COMMITTER_DATE"%string))
      else None
  | _ => None
  end.

(** The commits made, oldest first. *)
Definition commits (h : list event) : list commit := omap commit_of_event h.

Definition is_push (e : event) : bool :=
  match e with
  | Ran argv _ _ => bool_decide (argv = ["git"; "push"]%string)
  | _ => false
  end.

(** * The vocabulary of the statements *)

(** ** What one step of the replay is expected to do *)

Definition tracked_file : string := "dummy.txt".

Definition line_of (t : datetime) : string :=
  ("Fake commit on " +:+ strftime t +:+ nl)%string.

Definition message_of (t : datetime) : string :=
  ("Fake commit for " +:+ strftime t)%string.

(** The environment of the process with both dates overridden by [t]. *)
Definition commit_env (E : gmap string string) (t : datetime) : gmap string string :=
  <["GIT_COMMITTER_DATE"%string := strftime t]>
    (<["GIT_AUTHOR_DATE"%string := strftime t]> E).

Definition ev_append (t : datetime) : event := Appended tracked_file (line_of t).

Definition ev_stage (E : gmap string string) (st : tool_status) : event :=
  Ran ["git"; "add"; tracked_file]%string E st.

Definition ev_commit (E : gmap string string) (t : datetime) (st : tool_status) : event :=
  Ran ["git"; "commit"; "--allow-empty"; "-m"; message_of t]%string (commit_env E t) st.

Definition ev_push (E : gmap string string) (st : tool_status) : event :=
  Ran ["git"; "push"]%string E st.

(** The events of one timestamp when every call succeeds. *)
Definition step (E : gmap string string) (t : datetime) : list event :=
  [ev_append t; ev_stage E (Exited 0); ev_commit E t (Exited 0)].

Definition commit_for (t : datetime) : commit :=
  mk_commit ["git"; "commit"; "--allow-empty"; "-m"; message_of t]%string
    (Some (strftime t)) (Some (strftime t)).

(** ** The windows of the sampler *)

(** What the loop guarantees of a commit drawn in the week that starts at
    [current]. *)
Definition in_window (current : Z) (end_date : datetime) (t : datetime) : Prop :=
  current ≤ dt_date t ∧ dt_date t ≤ dt_date end_date ∧ dt_date t ≤ current + 6
  ∧ 9 ≤ dt_hour t ≤ 20 ∧ 0 ≤ dt_minute t ≤ 59 ∧ 0 ≤ dt_second t ≤ 59
  ∧ dt_microsecond t = 0.

(** The number of 7-day windows that start before the end date. *)
Definition weeks (current : Z) (end_date : datetime) : Z :=
  Z.max 0 ((dt_date end_date - current + 6) / 7).

(** What the loop guarantees of every commit of the schedule. *)
Definition sampled (start_date : Z) (end_date : datetime) (t : datetime) : Prop :=
  start_date ≤ dt_date t ≤ dt_date end_date
  ∧ 9 ≤ dt_hour t ≤ 20 ∧ 0 ≤ dt_minute t ≤ 59 ∧ 0 ≤ dt_second t ≤ 59
  ∧ dt_microsecond t = 0.

(** The loop as a fixed number of turns: the body, then the increment. *)
Fixpoint turns (n : nat) (end_date : datetime) (current : Z)
    (commit_dates : list datetime) : M rng_state (list datetime) :=
  match n with
  | O => ret commit_dates
  | S n' =>
      let* commit_dates' := week current end_date commit_dates in
      let* next := lift_result (date_add current 7) in
      turns n' end_date next commit_dates'
  end.

(** ** The outcomes of the replay *)

(** The exception [subprocess.run(..., check=True)] raises for a call that
    did not end with exit status 0. *)
Definition exn_of (st : tool_status) : exn :=
  match st with
  | Exited _ => CalledProcessError
  | NoSuchProgram => FileNotFoundError
  end.

(** The working directory after the line of [t] is appended to the tracked
    file (which is created when it does not exist). *)
Definition write_line (f : gmap string string) (t : datetime) : gmap string string :=
  <[tracked_file := (default EmptyString (f !! tracked_file) +:+ line_of t)%string]> f.

Definition write_lines (f : gmap string string) (ts : list datetime) : gmap string string :=
  foldl write_line f ts.

Definition committed_line (t : datetime) : string :=
  ("Committed: " +:+ message_of t)%string.

(** [make_commit], started as the [n]-th event, runs to its end. *)
Definition completes (w : world) (n : nat) : Prop :=
  disk w n = true ∧ tool w (S n) = Exited 0 ∧ tool w (S (S n)) = Exited 0.

(** The ways [make_commit t], started as the [n]-th event, stops early: the
    events it leaves, the exception it raises, and whether the line was
    appended. *)
Inductive aborted (w : world) (n : nat) (E : gmap string string) (t : datetime)
  : list event → exn → bool → Prop :=
| aborted_append :
    disk w n = false →
    aborted w n E t [AppendFailed tracked_file] OSError false
| aborted_stage st :
    disk w n = true → tool w (S n) = st → st ≠ Exited 0 →
    aborted w n E t [ev_append t; ev_stage E st] (exn_of st) true
| aborted_commit st :
    disk w n = true → tool w (S n) = Exited 0 →
    tool w (S (S n)) = st → st ≠ Exited 0 →
    aborted w n E t [ev_append t; ev_stage E (Exited 0); ev_commit E t st]
      (exn_of st) true.

(** The directory [f] after the append of the line of [t] failed as the
    [n]-th event. *)
Definition tear (w : world) (n : nat) (f : gmap string string) (t : datetime)
    : gmap string string :=
  torn_append (torn w n) tracked_file (line_of t) f.

(** What no step of the script changes: the identity and the contents of
    [os.environ], the generator, the clock and the behaviour of the
    surroundings. *)
Definition same_process (w w' : world) : Prop :=
  os_environ w' = os_environ w
  ∧ deref w' (os_environ w') = deref w (os_environ w)
  ∧ world_ok w'
  ∧ random w' = random w ∧ clock w' = clock w
  ∧ tool w' = tool w ∧ disk w' = disk w ∧ torn w' = torn w.

(** An event that went well. *)
Definition succeeded (e : event) : Prop :=
  match e with
  | Appended _ _ => True
  | AppendFailed _ => False
  | Ran _ _ st => st = Exited 0
  end.

Definition succeeded_b (e : event) : bool :=
  match e with
  | Appended _ _ => true
  | AppendFailed _ => false
  | Ran _ _ st => bool_decide (st = Exited 0)
  end.

(** What the process did since it was in the state [w]. *)
Definition events_since (w w' : world) : list event :=
  drop (length (history w)) (history w').

(** The environment of a call is the environment of the process, or, for
    the commit of a timestamp of the schedule, that environment with the
    two dates of this very timestamp. *)
Definition own_environment (E : gmap string string) (l : list datetime)
    (e : event) : Prop :=
  match e with
  | Ran argv env _ =>
      (env = E ∧ (argv = ["git"; "add"; tracked_file]%string
                  ∨ argv = ["git"; "push"]%string))
      ∨ (∃ t, t ∈ l
              ∧ argv = ["git"; "commit"; "--allow-empty"; "-m"; message_of t]%string
              ∧ env = commit_env E t)
  | _ => True
  end.

(** * Concrete inputs *)

Definition const_tape (v : Z) : rng_state := mk_rng (λ _, v) 0.

Definition june_1 : Z := date 2024 6 1.

(** 2024-06-02 08:00:00, the day after the start date, before working hours. *)
Definition june_2_morning : datetime := mk_datetime (date 2024 6 2) 8 0 0 0.

(** 2024-06-12 15:30:00: eleven days after the start date. *)
Definition june_12_afternoon : datetime := mk_datetime (date 2024 6 12) 15 30 0 0.

(** Raw draws that differ from call to call. *)
Definition varied_tape : rng_state := mk_rng (λ n, Z.of_nat (n * n * 7 + 3)) 0.

(** 2024-06-15 00:00:00: two whole weeks after the start date. *)
Definition june_15_midnight : datetime := midnight (date 2024 6 15).

Definition home_env : gmap string string :=
  {[ "HOME"%string := "/home/dev"%string ]}.

(** A process whose [os.environ] is the dict 0, in an empty directory, at
    2024-06-12 15:30:00. *)
Definition desk (tool : nat → tool_status) (disk : nat → bool) : world :=
  mk_world {[ 0%nat := home_env ]} 0%nat ∅ [] [] varied_tape
    june_12_afternoon tool disk (λ _, None).

Definition always_ok : nat → tool_status := λ _, Exited 0.

Definition fails_at (k : nat) (st : tool_status) : nat → tool_status :=
  λ i, if (i =? k)%nat then st else Exited 0.

Definition writable : nat → bool := λ _, true.

Definition t1 : datetime := combine (date 2024 6 3) 9 15 0.
Definition t2 : datetime := combine (date 2024 6 3) 17 40 12.
Definition t3 : datetime := combine (date 2024 6 5) 11 0 59.
Definition t4 : datetime := combine (date 2024 6 6) 20 59 59.
Definition t5 : datetime := combine (date 2024 6 7) 9 0 0.
Definition five : list datetime := [t1; t2; t3; t4; t5].

(** The commit call of the 2nd of five timestamps (event 5) ends with exit
    status 1. *)
Definition w_commit_fails : world := desk (fails_at 5 (Exited 1)) writable.

(** Everything goes well. *)
Definition w_fine : world := desk always_ok writable.

(** The check of the working directory (event 0) ends with exit status 128. *)
Definition w_outside : world := desk (fails_at 0 (Exited 128)) writable.

(** The commit call of a single [make_commit] (event 2) ends with exit
    status 1. *)
Definition w_one_commit_fails : world := desk (fails_at 2 (Exited 1)) writable.

(** The same process at 2024-06-08 12:00:00, one week after the start date
    of [main], where everything goes well. *)
Definition w_one_week : world :=
  mk_world {[ 0%nat := home_env ]} 0%nat ∅ [] [] varied_tape
    (mk_datetime (date 2024 6 8) 12 0 0 0) always_ok writable (λ _, None).

(** * Further vocabulary *)

(** The calendar date of [t] lies in the seven days that start at [lo]. *)
Definition in_days (lo : Z) (t : datetime) : Prop := lo ≤ dt_date t ≤ lo + 6.

#[global] Instance in_days_dec lo t : Decision (in_days lo t).
Proof. unfold in_days. apply _. Defined.

(** The commits of the schedule [l] that are dated in the week [k] of the
    range that starts at [start_date] (the first week is week 0). *)
Definition commits_of_week (start_date : Z) (k : Z) (l : list datetime) : list datetime :=
  filter (in_days (start_date + 7 * k)) l.

(** Where the process runs, as the version-control tool sees it. *)
Inductive location : Set :=
| InsideWorkTree       (* among the checked-out files of a repository *)
| InsideGitDir         (* in a repository, but not in a working tree: a bare
                          repository, or the .git directory itself *)
| OutsideRepository.   (* in no repository at all *)

(** [git rev-parse --is-inside-work-tree], as the tool documents it: its
    exit status and the line it prints.  In a repository it exits with 0 and
    prints whether the directory is inside a working tree; outside every
    repository it fails with status 128.  [main] captures the printed line
    ([stdout=subprocess.PIPE]) and never reads it. *)
Definition rev_parse_is_inside_work_tree (loc : location) : tool_status * string :=
  match loc with
  | InsideWorkTree => (Exited 0, "true"%string)
  | InsideGitDir => (Exited 0, "false"%string)
  | OutsideRepository => (Exited 128, EmptyString)
  end.

(** A process in the .git directory of a repository: the check (event 0)
    exits with 0, and staging (event 2) is refused there with status 128. *)
Definition w_git_dir : world := desk (fails_at 2 (Exited 128)) writable.

(** The exception that an event which went wrong raises. *)
Definition exn_of_event (e : event) : exn :=
  match e with
  | Ran _ _ st => exn_of st
  | _ => OSError
  end.

(** The check of the working directory made by [main]. *)
Definition ev_check (E : gmap string string) (st : tool_status) : event :=
  Ran ["git"; "rev-parse"; "--is-inside-work-tree"]%string E st.

(** The line [main] prints before the replay. *)
Definition announcement (count : nat) (end_day : Z) : string :=
  ("Generating " +:+ decimal (Z.of_nat count) +:+ " fake commits from "
   +:+ isoformat (date 2024 6 1) +:+ " to " +:+ isoformat end_day +:+ "...")%string.

Definition final_line : string := "All fake commits have been pushed.".

(** The only things the script does to the outside: it appends to the
    tracked file, and it runs one of four commands of the tool. *)
Definition allowed_event (e : event) : Prop :=
  match e with
  | Appended filename _ => filename = tracked_file
  | AppendFailed filename => filename = tracked_file
  | Ran argv _ _ =>
      argv = ["git"; "rev-parse"; "--is-inside-work-tree"]%string
      ∨ argv = ["git"; "add"; tracked_file]%string
      ∨ argv = ["git"; "push"]%string
      ∨ ∃ message, argv = ["git"; "commit"; "--allow-empty"; "-m"; message]%string
  end.

(** The contents of the tracked file (empty when it does not exist). *)
Definition tracked_contents (f : gmap string string) : string :=
  default EmptyString (f !! tracked_file).

(** What an append of [text] that failed wrote before it failed. *)
Definition torn_text (part : option nat) (text : string) : string :=
  match part with
  | None => EmptyString
  | Some m => substring 0 m text
  end.

(** The lines of the timestamps [ts], one after the other. *)
Definition lines_of (ts : list datetime) : string :=
  foldr (λ t s, (line_of t +:+ s)%string) EmptyString ts.

(** The disk fills up during the append of the 2nd timestamp of a replay
    (event 3): the file is opened and five characters of the line reach it.
    In a run of [main] the check is event 0, and event 4 is the append of
    the 2nd timestamp. *)
Definition disk_full_at (k : nat) : world :=
  mk_world {[ 0%nat := home_env ]} 0%nat ∅ [] [] varied_tape
    june_12_afternoon always_ok (λ i, negb (i =? k)%nat) (λ _, Some 5%nat).

Definition w_disk_full : world := disk_full_at 3.

Definition w_main_disk_full : world := disk_full_at 4.

(** The tool cannot be started for the check of the working directory. *)
Definition w_no_git : world := desk (fails_at 0 NoSuchProgram) writable.

(** The present moment is before the start date of [main]. *)
Definition w_too_early (tool : nat → tool_status) : world :=
  mk_world {[ 0%nat := home_env ]} 0%nat ∅ [] [] varied_tape
    (mk_datetime (date 2024 5 20) 10 0 0 0) tool writable (λ _, None).

(** The state in which [main] starts the replay: the check went well, the
    schedule of [count] commits was drawn (leaving the generator in [st'])
    and announced. *)
Definition checked (w : world) (st' : rng_state) (count : nat) : world :=
  set_stdout (stdout w ++ [announcement count (dt_date (clock w))])
    (set_random st'
       (set_history
          (history w ++ [ev_check (deref w (os_environ w)) (Exited 0)]) w)).

(** The schedule that [varied_tape] gives for the week from 2024-06-01 to
    2024-06-08. *)
Definition week_schedule : list datetime :=
  [combine (date 2024 6 4) 12 46 31; combine (date 2024 6 4) 16 6 55;
   combine (date 2024 6 4) 16 10 51].

(** * Properties *)

(** ** The calendar *)

Example date_2024_06_01 : date 2024 6 1 = 739038.
Proof. reflexivity. Qed.

Example strftime_example :
  strftime (combine (date 2024 6 1) 9 5 0) = "2024-06-01T09:05:00"%string.
Proof. vm_compute. reflexivity. Qed.

Example isoformat_example : isoformat (date 9999 12 31) = "9999-12-31"%string
  ∧ date 9999 12 31 = MAXORDINAL ∧ isoformat (date 2024 2 29) = "2024-02-29"%string
  ∧ isoformat (date 2023 3 1) = "2023-03-01"%string ∧ isoformat 1 = "0001-01-01"%string.
Proof. vm_compute. repeat split. Qed.

(** ** The order on datetimes *)

Section DatetimeOrder.

Lemma lex_Eq c1 c2 : lex c1 c2 = Eq ↔ c1 = Eq ∧ c2 = Eq.
Proof. destruct c1, c2; simpl; intuition congruence. Qed.

Lemma lex_Lt c1 c2 : lex c1 c2 = Lt ↔ c1 = Lt ∨ (c1 = Eq ∧ c2 = Lt).
Proof. destruct c1, c2; simpl; intuition congruence. Qed.

Lemma lex_Gt c1 c2 : lex c1 c2 = Gt ↔ c1 = Gt ∨ (c1 = Eq ∧ c2 = Gt).
Proof. destruct c1, c2; simpl; intuition congruence. Qed.

Lemma datetime_cmp_Eq a b : datetime_cmp a b = Eq ↔ a = b.
Proof.
  unfold datetime_cmp. rewrite !lex_Eq, !Z.compare_eq_iff.
  destruct a, b; simpl. split.
  - intros (-> & -> & -> & -> & ->). reflexivity.
  - intros [= -> -> -> -> ->]. repeat split.
Qed.

Lemma datetime_cmp_Gt a b : datetime_cmp a b = Gt ↔ datetime_cmp b a = Lt.
Proof.
  unfold datetime_cmp.
  rewrite !lex_Gt, !lex_Lt, !Z.compare_eq_iff, !Z.compare_gt_iff, !Z.compare_lt_iff.
  intuition lia.
Qed.

(** The key of a datetime in the lexicographic order, field by field. *)
Lemma datetime_lt_fields a b :
  datetime_lt a b ↔
    dt_date a < dt_date b ∨ (dt_date a = dt_date b ∧
     (dt_hour a < dt_hour b ∨ (dt_hour a = dt_hour b ∧
      (dt_minute a < dt_minute b ∨ (dt_minute a = dt_minute b ∧
       (dt_second a < dt_second b ∨ (dt_second a = dt_second b ∧
        dt_microsecond a < dt_microsecond b))))))).
Proof.
  unfold datetime_lt, datetime_cmp.
  rewrite !lex_Lt, !Z.compare_eq_iff, !Z.compare_lt_iff. reflexivity.
Qed.

Lemma datetime_le_lt a b : datetime_le a b ↔ ¬ datetime_lt b a.
Proof. unfold datetime_le, datetime_lt. rewrite datetime_cmp_Gt. reflexivity. Qed.

Lemma datetime_le_date a b : datetime_le a b → dt_date a ≤ dt_date b.
Proof. rewrite datetime_le_lt, datetime_lt_fields. lia. Qed.

Lemma datetime_lt_date a b : dt_date a < dt_date b → datetime_lt a b.
Proof. rewrite datetime_lt_fields. lia. Qed.

#[global] Instance datetime_le_total : Total datetime_le.
Proof.
  intros a b. rewrite !datetime_le_lt, !datetime_lt_fields. lia.
Qed.

#[global] Instance datetime_le_trans : Transitive datetime_le.
Proof.
  intros a b c. rewrite !datetime_le_lt, !datetime_lt_fields. lia.
Qed.

#[global] Instance datetime_le_antisymm : AntiSymm (=) datetime_le.
Proof.
  intros a b Hab Hba. apply datetime_cmp_Eq.
  unfold datetime_le in *. rewrite datetime_cmp_Gt in Hba.
  destruct (datetime_cmp a b); congruence.
Qed.

End DatetimeOrder.

(** ** [list.sort] *)

Lemma sort_sorted l : Sorted datetime_le (sort l).
Proof. apply Sorted_merge_sort, _. Qed.

Lemma sort_perm l : sort l ≡ₚ l.
Proof. apply merge_sort_Permutation. Qed.

Lemma sort_fixed l : Sorted datetime_le l → sort l = l.
Proof.
  intros Hl. apply (Sorted_unique datetime_le); [apply sort_sorted | assumption | apply sort_perm].
Qed.

(** ** The sampler *)

Lemma randint_spec a b st :
  a ≤ b →
  ∃ v, a ≤ v ≤ b ∧ randint a b st = (Return v, mk_rng (tape st) (S (drawn st))).
Proof.
  intros Hab. unfold randint. eexists. split; [| reflexivity].
  pose proof (Z.mod_pos_bound (tape st (drawn st)) (b - a + 1)). lia.
Qed.

(** Every value of the range is the outcome of [randint] for some tape. *)
Lemma randint_any a b v n :
  a ≤ v ≤ b →
  fst (randint a b (mk_rng (λ _, v - a) n)) = Return v.
Proof.
  intros Hv. unfold randint. simpl. f_equal.
  rewrite Z.mod_small by lia. lia.
Qed.

Lemma date_add_spec d n r :
  date_add d n = r →
  (r = Return (d + n) ∧ MINORDINAL ≤ d + n ≤ MAXORDINAL)
  ∨ (r = Raise OverflowError ∧ ¬ (MINORDINAL ≤ d + n ≤ MAXORDINAL)).
Proof.
  unfold date_add. intros <-.
  destruct (MINORDINAL <=? d + n) eqn:E1, (d + n <=? MAXORDINAL) eqn:E2; simpl;
    [left | right ..]; split; try reflexivity; lia.
Qed.

Lemma draw_commit_spec current end_date st r st' :
  draw_commit current end_date st = (r, st') →
  MINORDINAL ≤ current ≤ dt_date end_date →
  tape st' = tape st
  ∧ match r with
    | Return t => drawn st' = (drawn st + 4)%nat ∧ in_window current end_date t
    | Raise e => e = OverflowError ∧ MAXORDINAL < current + 6
    end.
Proof.
  intros Hrun Hce. unfold draw_commit, bind, lift_result, ret in Hrun.
  destruct (randint_spec 0 6 st) as (off & Hoff & E1); [lia |].
  rewrite E1 in Hrun.
  destruct (date_add_spec current off _ eq_refl) as [[E2 Hd] | [E2 Hd]];
    rewrite E2 in Hrun.
  - destruct (randint_spec 9 20 (mk_rng (tape st) (S (drawn st))))
      as (h & Hh & E3); [lia |].
    rewrite E3 in Hrun. cbn [tape drawn] in Hrun.
    destruct (randint_spec 0 59 (mk_rng (tape st) (S (S (drawn st)))))
      as (m & Hm & E4); [lia |].
    rewrite E4 in Hrun. cbn [tape drawn] in Hrun.
    destruct (randint_spec 0 59 (mk_rng (tape st) (S (S (S (drawn st))))))
      as (s & Hs & E5); [lia |].
    rewrite E5 in Hrun. cbn [tape drawn] in Hrun.
    inversion Hrun; subst; clear Hrun. simpl.
    split; [reflexivity |]. split; [lia |].
    unfold in_window, combine; simpl.
    destruct (dt_date end_date <? current + off) eqn:E; lia.
  - inversion Hrun; subst; clear Hrun. simpl.
    unfold MINORDINAL, MAXORDINAL in *. repeat split; lia.
Qed.

Lemma week_commits_spec n current end_date acc st r st' :
  week_commits n current end_date acc st = (r, st') →
  MINORDINAL ≤ current ≤ dt_date end_date →
  tape st' = tape st
  ∧ match r with
    | Return l =>
        ∃ new, l = acc ++ new ∧ length new = n
               ∧ drawn st' = (drawn st + 4 * n)%nat
               ∧ Forall (in_window current end_date) new
    | Raise e => e = OverflowError ∧ MAXORDINAL < current + 6
    end.
Proof.
  intros Hrun Hce. revert acc st Hrun.
  induction n as [| n IH]; intros acc st Hrun; simpl in Hrun.
  - inversion Hrun; subst. split; [reflexivity |].
    exists []. rewrite app_nil_r. repeat split; [lia | constructor].
  - unfold bind in Hrun.
    destruct (draw_commit current end_date st) as [[t | e] st1] eqn:E1;
      apply draw_commit_spec in E1 as [Ht1 E1]; try assumption.
    + destruct E1 as [Hd1 Hw].
      apply IH in Hrun as [Ht2 Hr]. split; [congruence |].
      destruct r as [l | e]; [| assumption].
      destruct Hr as (new & -> & Hlen & Hd2 & Hall).
      exists (t :: new). rewrite <- app_assoc. simpl.
      repeat split; [lia | lia | constructor; assumption].
    + inversion Hrun; subst. split; assumption.
Qed.

Lemma week_spec current end_date acc st r st' :
  week current end_date acc st = (r, st') →
  MINORDINAL ≤ current ≤ dt_date end_date →
  tape st' = tape st
  ∧ match r with
    | Return l =>
        ∃ new, l = acc ++ new ∧ (3 ≤ length new ≤ 5)%nat
               ∧ drawn st' = (drawn st + 1 + 4 * length new)%nat
               ∧ Forall (in_window current end_date) new
    | Raise e => e = OverflowError ∧ MAXORDINAL < current + 6
    end.
Proof.
  intros Hrun Hce. unfold week, bind in Hrun.
  destruct (randint_spec 3 5 st) as (c & Hc & E1); [lia |].
  rewrite E1 in Hrun.
  apply week_commits_spec in Hrun as [Ht Hr]; [| assumption].
  split; [assumption |].
  destruct r as [l | e]; [| assumption].
  destruct Hr as (new & -> & Hlen & Hd & Hall).
  exists new. cbn [drawn] in Hd. repeat split; try assumption; lia.
Qed.

(** The loop, one turn unfolded. *)
Lemma weekly_loop_turn end_date current acc st :
  weekly_loop end_date current acc st =
    if current <? dt_date end_date then
      match week current end_date acc st with
      | (Return acc', st') =>
          match date_add current 7 with
          | Return next => weekly_loop end_date next acc' st'
          | Raise e => (Raise e, st')
          end
      | (Raise e, st') => (Raise e, st')
      end
    else (Return acc, st).
Proof.
  funelim (weekly_loop end_date current acc st);
    try (rewrite <- Heqcall; clear Heqcall);
    repeat match goal with
      | H : (_ <? _) = _ |- _ => rewrite H
      | H : week _ _ _ _ = _ |- _ => rewrite H
      | H : date_add _ _ = _ |- _ => rewrite H
      end; reflexivity.
Qed.

Lemma weeks_done current end_date :
  dt_date end_date ≤ current → weeks current end_date = 0.
Proof. unfold weeks. intros H. Z.div_mod_to_equations. lia. Qed.

Lemma weeks_step current end_date :
  current < dt_date end_date →
  weeks current end_date = 1 + weeks (current + 7) end_date.
Proof. unfold weeks. intros H. Z.div_mod_to_equations. lia. Qed.

Lemma weeks_nonneg current end_date : 0 ≤ weeks current end_date.
Proof. unfold weeks. lia. Qed.

Lemma in_window_sampled start_date current end_date t :
  start_date ≤ current → in_window current end_date t → sampled start_date end_date t.
Proof. unfold in_window, sampled. lia. Qed.

Lemma weekly_loop_spec end_date (k : nat) :
  ∀ current acc st r st',
    dt_date end_date - current ≤ 7 * Z.of_nat k →
    MINORDINAL ≤ current →
    weekly_loop end_date current acc st = (r, st') →
    tape st' = tape st
    ∧ match r with
      | Return l =>
          ∃ new, l = acc ++ new
            ∧ 3 * weeks current end_date ≤ Z.of_nat (length new)
                ≤ 5 * weeks current end_date
            ∧ Z.of_nat (drawn st') =
                Z.of_nat (drawn st) + weeks current end_date
                + 4 * Z.of_nat (length new)
            ∧ Forall (sampled current end_date) new
      | Raise e =>
          e = OverflowError
          ∧ MAXORDINAL < current + 7 * weeks current end_date
      end.
Proof.
  induction k as [| k IH]; intros current acc st r st' Hk Hmin Hrun;
    rewrite weekly_loop_turn in Hrun;
    destruct (current <? dt_date end_date) eqn:Hlt;
    try (apply Z.ltb_lt in Hlt; lia).
  - apply Z.ltb_ge in Hlt. inversion Hrun; subst. split; [reflexivity |].
    exists []. rewrite app_nil_r, weeks_done by assumption.
    simpl. repeat split; try lia. constructor.
  - apply Z.ltb_lt in Hlt.
    destruct (week current end_date acc st) as [[acc' | e] st1] eqn:Ew;
      apply week_spec in Ew as [Ht1 Hw]; try lia.
    + destruct Hw as (new1 & -> & Hlen1 & Hd1 & Hall1).
      destruct (date_add_spec current 7 _ eq_refl) as [[E Hd] | [E Hd]];
        rewrite E in Hrun.
      * apply IH in Hrun as [Ht2 Hr]; [| lia | lia].
        split; [congruence |].
        rewrite (weeks_step current) by assumption.
        destruct r as [l | e].
        -- destruct Hr as (new2 & -> & Hlen2 & Hd2 & Hall2).
           exists (new1 ++ new2). rewrite app_assoc, length_app.
           repeat split; try lia.
           apply Forall_app. split.
           ++ eapply Forall_impl; [exact Hall1 |].
              intros t. apply in_window_sampled. lia.
           ++ eapply Forall_impl; [exact Hall2 |].
              unfold sampled. intros t. lia.
        -- destruct Hr as [-> Hr]. split; [reflexivity | lia].
      * inversion Hrun; subst. split; [assumption |].
        split; [reflexivity |].
        rewrite (weeks_step current) by assumption.
        pose proof (weeks_nonneg (current + 7) end_date).
        unfold MINORDINAL in *. lia.
    + inversion Hrun; subst. split; [assumption |].
      destruct Hw as [-> Hw]. split; [reflexivity |].
      rewrite (weeks_step current) by assumption.
      pose proof (weeks_nonneg (current + 7) end_date). lia.
  - apply Z.ltb_ge in Hlt. inversion Hrun; subst. split; [reflexivity |].
    exists []. rewrite app_nil_r, weeks_done by assumption.
    simpl. repeat split; try lia. constructor.
Qed.

Lemma weekly_loop_turns end_date (n : nat) :
  ∀ current acc st,
    weeks current end_date = Z.of_nat n →
    weekly_loop end_date current acc st = turns n end_date current acc st.
Proof.
  induction n as [| n IH]; intros current acc st Hn;
    rewrite weekly_loop_turn;
    destruct (current <? dt_date end_date) eqn:Hlt.
  - apply Z.ltb_lt in Hlt. rewrite weeks_step in Hn by assumption.
    pose proof (weeks_nonneg (current + 7) end_date). lia.
  - reflexivity.
  - apply Z.ltb_lt in Hlt. rewrite weeks_step in Hn by assumption.
    simpl. unfold bind, lift_result.
    destruct (week current end_date acc st) as [[acc' | e] st1]; [| reflexivity].
    unfold date_add.
    destruct ((MINORDINAL <=? current + 7) && (current + 7 <=? MAXORDINAL));
      [| reflexivity].
    apply IH. lia.
  - apply Z.ltb_ge in Hlt. rewrite weeks_done in Hn by assumption. lia.
Qed.

Lemma weeks_ceil current end_date n :
  7 * (n - 1) < dt_date end_date - current ≤ 7 * n → 1 ≤ n →
  weeks current end_date = n.
Proof. unfold weeks. intros H1 H2. Z.div_mod_to_equations. lia. Qed.

Lemma generate_commit_dates_spec start_date end_date st r st' :
  generate_commit_dates start_date end_date st = (r, st') →
  MINORDINAL ≤ start_date →
  tape st' = tape st
  ∧ match r with
    | Return l =>
        Sorted datetime_le l
        ∧ 3 * weeks start_date end_date ≤ Z.of_nat (length l)
            ≤ 5 * weeks start_date end_date
        ∧ Z.of_nat (drawn st') =
            Z.of_nat (drawn st) + weeks start_date end_date
            + 4 * Z.of_nat (length l)
        ∧ Forall (sampled start_date end_date) l
    | Raise e =>
        e = OverflowError
        ∧ MAXORDINAL < start_date + 7 * weeks start_date end_date
    end.
Proof.
  intros Hrun Hmin. unfold generate_commit_dates, bind, ret in Hrun.
  destruct (weekly_loop end_date start_date [] st) as [[l | e] st1] eqn:Eloop;
    inversion Hrun; subst; clear Hrun;
    apply (weekly_loop_spec end_date
             (Z.to_nat (dt_date end_date - start_date))) in Eloop
      as [Ht Hr]; try lia; (split; [assumption |]); [| assumption].
  destruct Hr as (new & -> & Hlen & Hd & Hall). simpl in *.
  split; [apply sort_sorted |].
  rewrite (Permutation_length (sort_perm new)).
  repeat split; try lia.
  rewrite sort_perm. assumption.
Qed.

Lemma sampled_instant start_date end_date t :
  sampled start_date end_date t →
  datetime_le (midnight start_date) t
  ∧ datetime_lt t (midnight (dt_date end_date + 1)).
Proof.
  unfold sampled. rewrite datetime_le_lt, !datetime_lt_fields. simpl. lia.
Qed.

(** ** The schedule: claims about [generate_commit_dates] *)

(** With every raw draw equal to 1: four commits in the only week, each one
    day after the start, at 10:01:01. *)
Example schedule_june_2_morning :
  generate_commit_dates june_1 june_2_morning (const_tape 1)
  = (Return [combine (date 2024 6 2) 10 1 1; combine (date 2024 6 2) 10 1 1;
             combine (date 2024 6 2) 10 1 1; combine (date 2024 6 2) 10 1 1],
     mk_rng (λ _, 1) 17).
Proof. vm_compute. reflexivity. Qed.

Lemma valid_june_1 : valid_date june_1.
Proof. unfold valid_date, MINORDINAL, MAXORDINAL. vm_compute. split; discriminate. Qed.

Lemma valid_june_2 : valid_date (dt_date june_2_morning).
Proof. unfold valid_date, MINORDINAL, MAXORDINAL. vm_compute. split; discriminate. Qed.

(** C1, as stated, fails: a commit drawn on the end's own calendar day gets a
    time of day between 09:00:00 and 20:59:59 whatever the end's time of day
    is.  From 2024-06-01 to 2024-06-02 08:00:00, when [randint(3, 5)] gives
    4, [randint(0, 6)] gives 1, [randint(9, 20)] gives 10 and
    [randint(0, 59)] gives 1, the schedule holds 2024-06-02 10:01:01, which
    is later than the end. *)
Lemma generate_commit_dates_not_within_end :
  ¬ (∀ start_date end_date st l st',
       valid_date start_date → valid_date (dt_date end_date) →
       generate_commit_dates start_date end_date st = (Return l, st') →
       Forall (λ t, datetime_le (midnight start_date) t ∧ datetime_le t end_date) l).
Proof.
  intros H.
  specialize (H _ _ _ _ _ valid_june_1 valid_june_2 schedule_june_2_morning).
  apply Forall_cons_1 in H as [[_ H] _].
  apply H. vm_compute. reflexivity.
Qed.

(** C1, amended: every timestamp of the returned schedule is at or after the
    start date's midnight, its calendar date is at most the end's calendar
    date (it lies before the midnight that ends the end's day), and its time
    of day lies between 09:00:00 and 20:59:59. *)
Theorem generate_commit_dates_within_days start_date end_date st l st' :
  valid_date start_date →
  generate_commit_dates start_date end_date st = (Return l, st') →
  Forall (λ t, datetime_le (midnight start_date) t
               ∧ dt_date t ≤ dt_date end_date
               ∧ datetime_lt t (midnight (dt_date end_date + 1))
               ∧ datetime_le (combine (dt_date t) 9 0 0) t
               ∧ datetime_le t (combine (dt_date t) 20 59 59)) l.
Proof.
  intros [Hmin _] Hrun.
  apply generate_commit_dates_spec in Hrun as (_ & _ & _ & _ & Hall); [| assumption].
  eapply Forall_impl; [exact Hall |].
  intros t Ht. destruct (sampled_instant _ _ _ Ht) as [H1 H2].
  repeat split; try assumption.
  - unfold sampled in Ht. lia.
  - unfold sampled in Ht. rewrite datetime_le_lt, datetime_lt_fields. simpl. lia.
  - unfold sampled in Ht. rewrite datetime_le_lt, datetime_lt_fields. simpl. lia.
Qed.

Lemma generate_commit_dates_within_days_witness :
  Forall (λ t, datetime_le (midnight june_1) t
               ∧ dt_date t ≤ dt_date june_2_morning
               ∧ datetime_lt t (midnight (dt_date june_2_morning + 1))
               ∧ datetime_le (combine (dt_date t) 9 0 0) t
               ∧ datetime_le t (combine (dt_date t) 20 59 59))
    [combine (date 2024 6 2) 10 1 1; combine (date 2024 6 2) 10 1 1;
     combine (date 2024 6 2) 10 1 1; combine (date 2024 6 2) 10 1 1].
Proof.
  apply (generate_commit_dates_within_days june_1 june_2_morning (const_tape 1)
           _ (mk_rng (λ _, 1) 17)).
  - unfold valid_date, MINORDINAL, MAXORDINAL. vm_compute. split; discriminate.
  - vm_compute. reflexivity.
Defined.

(** C2: the returned schedule is sorted in non-decreasing order, and
    sorting it again gives the same list. *)
Theorem generate_commit_dates_sorted start_date end_date st l st' :
  generate_commit_dates start_date end_date st = (Return l, st') →
  Sorted datetime_le l ∧ sort l = l.
Proof.
  intros Hrun. unfold generate_commit_dates, bind, ret in Hrun.
  destruct (weekly_loop end_date start_date [] st) as [[l0 | e] st1];
    inversion Hrun; subst; clear Hrun.
  split; [apply sort_sorted | apply sort_fixed, sort_sorted].
Qed.

Lemma generate_commit_dates_sorted_witness :
  ∃ l st',
    generate_commit_dates june_1 june_12_afternoon varied_tape = (Return l, st')
    ∧ Sorted datetime_le l ∧ sort l = l.
Proof.
  eexists _, _. split; [vm_compute; reflexivity |].
  eapply (generate_commit_dates_sorted june_1 june_12_afternoon varied_tape).
  vm_compute. reflexivity.
Defined.

(** C3: when the start date is on or after the end's calendar date the loop
    body never runs: the schedule is empty and nothing is drawn. *)
Theorem generate_commit_dates_degenerate start_date end_date st :
  dt_date end_date ≤ start_date →
  generate_commit_dates start_date end_date st = (Return [], st).
Proof.
  intros Hge. unfold generate_commit_dates, bind, ret.
  rewrite weekly_loop_turn.
  destruct (start_date <? dt_date end_date) eqn:Hlt;
    [apply Z.ltb_lt in Hlt; lia | reflexivity].
Qed.

Lemma generate_commit_dates_degenerate_witness :
  generate_commit_dates (date 2024 6 2) june_2_morning varied_tape
  = (Return [], varied_tape)
  ∧ generate_commit_dates (date 2024 6 9) june_2_morning varied_tape
    = (Return [], varied_tape).
Proof.
  split; apply generate_commit_dates_degenerate; vm_compute; discriminate.
Defined.

(** C4: over exactly W whole weeks (W ≥ 1) a schedule is returned, and its
    length lies between 3W and 5W; for one week it is 3, 4 or 5. *)
Theorem generate_commit_dates_whole_weeks start_date end_date st W :
  valid_date start_date → valid_date (dt_date end_date) →
  1 ≤ W → dt_date end_date = start_date + 7 * W →
  ∃ l st',
    generate_commit_dates start_date end_date st = (Return l, st')
    ∧ 3 * W ≤ Z.of_nat (length l) ≤ 5 * W
    ∧ (W = 1 → length l = 3%nat ∨ length l = 4%nat ∨ length l = 5%nat).
Proof.
  intros [Hmin _] [_ Hmax] HW Hend.
  assert (Hweeks : weeks start_date end_date = W) by (apply weeks_ceil; lia).
  destruct (generate_commit_dates start_date end_date st) as [[l | e] st'] eqn:Hrun;
    apply generate_commit_dates_spec in Hrun as [_ Hr]; try assumption;
    rewrite Hweeks in Hr.
  - destruct Hr as (_ & Hlen & _ & _). exists l, st'.
    split; [reflexivity |]. split; [assumption | lia].
  - destruct Hr as [_ Hr]. lia.
Qed.

Lemma generate_commit_dates_whole_weeks_witness :
  ∃ l st',
    generate_commit_dates june_1 june_15_midnight varied_tape = (Return l, st')
    ∧ 3 * 2 ≤ Z.of_nat (length l) ≤ 5 * 2
    ∧ (2 = 1 → length l = 3%nat ∨ length l = 4%nat ∨ length l = 5%nat).
Proof.
  apply (generate_commit_dates_whole_weeks june_1 june_15_midnight varied_tape 2).
  - exact valid_june_1.
  - unfold valid_date, MINORDINAL, MAXORDINAL. vm_compute. split; discriminate.
  - lia.
  - vm_compute. reflexivity.
Defined.

(** C10: when the start date is before the end's calendar date and
    n = ceil(D / 7) for the D days between them, the loop is n turns of its
    body, also when the last week is partial: the weekly count is drawn n
    times and each commit takes four more draws, and a returned schedule has
    between 3n and 5n commits.  A schedule is returned unless the last
    window reaches beyond the last representable date, where the date
    arithmetic raises [OverflowError]. *)
Theorem generate_commit_dates_partial_weeks start_date end_date st n :
  valid_date start_date → valid_date (dt_date end_date) →
  start_date < dt_date end_date →
  7 * (n - 1) < dt_date end_date - start_date ≤ 7 * n →
  generate_commit_dates start_date end_date st
  = (let* l := turns (Z.to_nat n) end_date start_date [] in ret (sort l)) st
  ∧ (∀ l st',
       generate_commit_dates start_date end_date st = (Return l, st') →
       3 * n ≤ Z.of_nat (length l) ≤ 5 * n
       ∧ Z.of_nat (drawn st') = Z.of_nat (drawn st) + n + 4 * Z.of_nat (length l))
  ∧ (∀ e st',
       generate_commit_dates start_date end_date st = (Raise e, st') →
       e = OverflowError ∧ MAXORDINAL < start_date + 7 * n)
  ∧ (start_date + 7 * n ≤ MAXORDINAL →
     ∃ l st', generate_commit_dates start_date end_date st = (Return l, st')).
Proof.
  intros [Hmin _] _ Hlt Hn.
  assert (Hweeks : weeks start_date end_date = n) by (apply weeks_ceil; lia).
  split; [| split; [| split]].
  - unfold generate_commit_dates, bind.
    rewrite (weekly_loop_turns end_date (Z.to_nat n)) by lia. reflexivity.
  - intros l st' Hrun.
    apply generate_commit_dates_spec in Hrun as (_ & _ & Hlen & Hd & _);
      [| assumption].
    rewrite Hweeks in *. split; assumption.
  - intros e st' Hrun.
    apply generate_commit_dates_spec in Hrun as (_ & He & Hover); [| assumption].
    rewrite Hweeks in *. split; assumption.
  - intros Hfit.
    destruct (generate_commit_dates start_date end_date st) as [[l | e] st'] eqn:Hrun.
    + exists l, st'. reflexivity.
    + apply generate_commit_dates_spec in Hrun as (_ & _ & Hover); [| assumption].
      rewrite Hweeks in *. lia.
Qed.

Lemma generate_commit_dates_partial_weeks_witness :
  generate_commit_dates june_1 june_12_afternoon varied_tape
  = (let* l := turns (Z.to_nat 2) june_12_afternoon june_1 [] in ret (sort l))
      varied_tape
  ∧ (∀ l st',
       generate_commit_dates june_1 june_12_afternoon varied_tape = (Return l, st') →
       3 * 2 ≤ Z.of_nat (length l) ≤ 5 * 2
       ∧ Z.of_nat (drawn st')
         = Z.of_nat (drawn varied_tape) + 2 + 4 * Z.of_nat (length l))
  ∧ (∀ e st',
       generate_commit_dates june_1 june_12_afternoon varied_tape = (Raise e, st') →
       e = OverflowError ∧ MAXORDINAL < june_1 + 7 * 2)
  ∧ (june_1 + 7 * 2 ≤ MAXORDINAL →
     ∃ l st',
       generate_commit_dates june_1 june_12_afternoon varied_tape = (Return l, st')).
Proof.
  apply (generate_commit_dates_partial_weeks june_1 june_12_afternoon varied_tape 2).
  - exact valid_june_1.
  - unfold valid_date, MINORDINAL, MAXORDINAL. vm_compute. split; discriminate.
  - vm_compute. reflexivity.
  - vm_compute. split; [reflexivity | discriminate].
Defined.

(** At the end of the calendar the increment of the loop overflows: from
    9999-12-30 to 9999-12-31 no schedule is returned. *)
Example generate_commit_dates_overflow :
  fst (generate_commit_dates (date 9999 12 30) (midnight (date 9999 12 31))
         (const_tape 1)) = Raise OverflowError.
Proof. vm_compute. reflexivity. Qed.

(** ** The replay: [make_commit], the loop over the schedule and the push *)

Lemma same_process_refl w : world_ok w → same_process w w.
Proof. unfold same_process. intros H. repeat split; assumption. Qed.

Lemma same_process_trans w1 w2 w3 :
  same_process w1 w2 → same_process w2 w3 → same_process w1 w3.
Proof. unfold same_process. intros H1 H2. intuition congruence. Qed.

Lemma subprocess_run_spec argv env w :
  let st := tool w (length (history w)) in
  let w' := set_history
              (history w ++ [Ran argv (deref w (default (os_environ w) env)) st]) w in
  subprocess_run argv env w
  = (if decide (st = Exited 0) then Return () else Raise (exn_of st), w').
Proof.
  unfold subprocess_run. simpl.
  destruct (tool w (length (history w))) as [[| p | p] |]; reflexivity.
Qed.

Lemma make_commit_spec t w r w' :
  world_ok w →
  make_commit t w = (r, w') →
  let E := deref w (os_environ w) in
  let n := length (history w) in
  same_process w w'
  ∧ ((r = Return () ∧ completes w n
      ∧ history w' = history w ++ step E t
      ∧ files w' = write_line (files w) t
      ∧ stdout w' = stdout w ++ [committed_line t])
     ∨ (∃ e tail appended,
          r = Raise e ∧ aborted w n E t tail e appended
          ∧ history w' = history w ++ tail
          ∧ files w' = (if appended then write_line (files w) t
                        else tear w n (files w) t)
          ∧ stdout w' = stdout w)).
Proof.
  intros Hok Hrun E n.
  unfold make_commit, bind, append_file in Hrun.
  destruct (disk w (length (history w))) eqn:Hdisk.
  2:{ inversion Hrun; subst; clear Hrun. split.
      - unfold same_process. simpl. repeat split; assumption.
      - right. exists OSError, [AppendFailed tracked_file], false.
        repeat split. constructor. assumption. }
  rewrite subprocess_run_spec in Hrun. simpl in Hrun.
  rewrite length_app, Nat.add_1_r in Hrun. fold n in Hrun.
  destruct (decide (tool w (S n) = Exited 0)) as [Hadd | Hadd];
    rewrite ?Hadd in Hrun.
  2:{ inversion Hrun; subst; clear Hrun. split.
      - unfold same_process. simpl. repeat split; assumption.
      - right. eexists _, _, true. split; [reflexivity |].
        split; [apply aborted_stage; [assumption | reflexivity | exact Hadd] |].
        simpl. rewrite <- app_assoc. repeat split. }
  unfold read, dict_copy, dict_setitem in Hrun. simpl in Hrun.
  rewrite subprocess_run_spec in Hrun. simpl in Hrun.
  rewrite !length_app, !Nat.add_1_r in Hrun. fold n in Hrun.
  set (r' := fresh (dom (heap w))) in *.
  assert (Hfresh : r' ≠ os_environ w).
  { intros Heq. apply (is_fresh (dom (heap w))). fold r'. rewrite Heq.
    apply elem_of_dom. exact Hok. }
  unfold deref in Hrun. simpl in Hrun.
  rewrite !lookup_total_insert_eq, !insert_insert_eq in Hrun.
  assert (Hsame : ∀ d, <[r' := d]> (heap w) !!! os_environ w = E).
  { intros d. rewrite lookup_total_insert_ne by assumption. reflexivity. }
  assert (Hok' : ∀ d, is_Some (<[r' := d]> (heap w) !! os_environ w)).
  { intros d. rewrite lookup_insert_ne by assumption. exact Hok. }
  destruct (decide (tool w (S (S n)) = Exited 0)) as [Hc | Hc];
    unfold print in Hrun; simpl in Hrun;
    inversion Hrun; subst; clear Hrun.
  - split.
    + unfold same_process, deref, world_ok. simpl. repeat split; auto.
    + left. simpl. rewrite Hc, <- !app_assoc. repeat split; assumption.
  - split.
    + unfold same_process, deref, world_ok. simpl. repeat split; auto.
    + right. eexists _, _, true. split; [reflexivity |].
      split; [apply aborted_commit; [assumption | assumption | reflexivity | exact Hc] |].
      simpl. rewrite <- !app_assoc. repeat split.
Qed.

Lemma completes_same w w' n :
  same_process w w' → completes w' n ↔ completes w n.
Proof.
  unfold same_process, completes. intros (_ & _ & _ & _ & _ & -> & -> & _).
  reflexivity.
Qed.

Lemma aborted_same w w' n E t tail e appended :
  same_process w w' → aborted w' n E t tail e appended →
  aborted w n E t tail e appended.
Proof.
  unfold same_process. intros (_ & _ & _ & _ & _ & Ht & Hd & _) Hab.
  destruct Hab; rewrite ?Ht, ?Hd in *; constructor; assumption.
Qed.

Lemma for_each_make_commit_spec l :
  ∀ w r w',
    world_ok w →
    for_each l make_commit w = (r, w') →
    let E := deref w (os_environ w) in
    let n := length (history w) in
    same_process w w'
    ∧ ∃ done rest,
        l = done ++ rest
        ∧ (∀ j, (j < length done)%nat → completes w (n + 3 * j))
        ∧ stdout w' = stdout w ++ map committed_line done
        ∧ ((r = Return () ∧ rest = []
            ∧ history w' = history w ++ flat_map (step E) done
            ∧ files w' = write_lines (files w) done)
           ∨ (∃ t rest' e tail appended,
                rest = t :: rest' ∧ r = Raise e
                ∧ aborted w (n + 3 * length done) E t tail e appended
                ∧ history w' = history w ++ flat_map (step E) done ++ tail
                ∧ files w' = (if appended
                              then write_line (write_lines (files w) done) t
                              else tear w (n + 3 * length done)
                                     (write_lines (files w) done) t))).
Proof.
  induction l as [| t l IH]; intros w r w' Hok Hrun E n.
  - simpl in Hrun. inversion Hrun; subst; clear Hrun.
    split; [apply same_process_refl; assumption |].
    exists [], []. simpl. rewrite !app_nil_r.
    split; [reflexivity |]. split; [intros j Hj; lia |].
    split; [reflexivity |]. left. repeat split.
  - simpl in Hrun. unfold bind in Hrun.
    destruct (make_commit t w) as [r1 w1] eqn:E1.
    apply make_commit_spec in E1 as [Hsame Hcase]; [| assumption].
    fold E n in Hcase.
    destruct Hcase as [(-> & Hdone & Hh & Hf & Ho) | (e & tail & ap & -> & Hab & Hh & Hf & Ho)].
    + pose proof Hsame as (Henv & HE & Hok1 & _ & _ & _ & _ & Htorn).
      apply IH in Hrun as [Hsame' Hrest]; [| assumption].
      split; [eapply same_process_trans; eassumption |].
      destruct Hrest as (done & rest & -> & Hall & Hout & Hcase).
      rewrite HE in Hcase. fold E in Hcase.
      assert (Hn : length (history w1) = (n + 3)%nat).
      { rewrite Hh, length_app. reflexivity. }
      rewrite Hn in Hall, Hcase.
      exists (t :: done), rest. split; [reflexivity |]. split; [| split].
      * intros [| j] Hj.
        -- rewrite Nat.mul_0_r, Nat.add_0_r. assumption.
        -- apply (completes_same w w1); [assumption |].
           replace (n + 3 * S j)%nat with (n + 3 + 3 * j)%nat by lia.
           apply Hall. simpl in Hj. lia.
      * rewrite Hout, Ho, <- app_assoc. reflexivity.
      * simpl length.
        replace (n + 3 * S (length done))%nat
          with (n + 3 + 3 * length done)%nat by lia.
        destruct Hcase as [(-> & -> & Hh' & Hf') | (t' & rest' & e & tail & ap & -> & -> & Hab & Hh' & Hf')].
        -- left. repeat split.
           ++ rewrite Hh', Hh, <- app_assoc. reflexivity.
           ++ rewrite Hf', Hf. reflexivity.
        -- right. exists t', rest', e, tail, ap. repeat split.
           ++ eapply aborted_same; eassumption.
           ++ rewrite Hh', Hh, <- !app_assoc. reflexivity.
           ++ rewrite Hf', Hf. unfold tear. rewrite Htorn. reflexivity.
    + inversion Hrun; subst; clear Hrun.
      split; [assumption |].
      exists [], (t :: l). simpl.
      rewrite Nat.add_0_r, app_nil_r.
      split; [reflexivity |]. split; [intros j Hj; lia |].
      split; [assumption |].
      right. exists t, l, e, tail, ap. repeat split; assumption.
Qed.

Lemma events_since_app w w' new :
  history w' = history w ++ new → events_since w w' = new.
Proof. unfold events_since. intros ->. apply drop_app_length. Qed.

Lemma replay_spec l w r w' :
  world_ok w →
  replay l w = (r, w') →
  let E := deref w (os_environ w) in
  let n := length (history w) in
  same_process w w'
  ∧ ∃ done rest,
      l = done ++ rest
      ∧ (∀ j, (j < length done)%nat → completes w (n + 3 * j))
      ∧ ((∃ t rest' e tail appended,
            rest = t :: rest' ∧ r = Raise e
            ∧ aborted w (n + 3 * length done) E t tail e appended
            ∧ history w' = history w ++ flat_map (step E) done ++ tail
            ∧ files w' = (if appended
                          then write_line (write_lines (files w) done) t
                          else tear w (n + 3 * length done)
                                 (write_lines (files w) done) t)
            ∧ stdout w' = stdout w ++ map committed_line done)
         ∨ (rest = []
            ∧ history w' = history w ++ flat_map (step E) l
                             ++ [ev_push E (tool w (n + 3 * length l))]
            ∧ files w' = write_lines (files w) l
            ∧ ((tool w (n + 3 * length l) = Exited 0 ∧ r = Return ()
                ∧ stdout w' = stdout w ++ map committed_line l
                                ++ ["All fake commits have been pushed."%string])
               ∨ (tool w (n + 3 * length l) ≠ Exited 0
                  ∧ r = Raise (exn_of (tool w (n + 3 * length l)))
                  ∧ stdout w' = stdout w ++ map committed_line l)))).
Proof.
  intros Hok Hrun E n. unfold replay, bind in Hrun.
  destruct (for_each l make_commit w) as [r1 w1] eqn:E1.
  apply for_each_make_commit_spec in E1 as [Hsame Hloop]; [| assumption].
  fold E n in Hloop.
  destruct Hloop as (done & rest & Hl & Hall & Hout & Hcase).
  destruct Hcase as [(-> & -> & Hh & Hf)
                    | (t & rest' & e & tail & ap & -> & -> & Hab & Hh & Hf)].
  - rewrite app_nil_r in Hl. subst done.
    rewrite subprocess_run_spec in Hrun. simpl in Hrun.
    pose proof Hsame as (Henv & HE & Hok1 & _ & _ & Htool & _).
    assert (Hn : length (history w1) = (n + 3 * length l)%nat).
    { rewrite Hh, length_app. f_equal. clear.
      induction l as [| t l IH]; simpl; lia. }
    rewrite Htool, Hn, HE in Hrun. fold E in Hrun.
    destruct (decide (tool w (n + 3 * length l)%nat = Exited 0)) as [Hp | Hp];
      unfold print in Hrun; simpl in Hrun; inversion Hrun; subst; clear Hrun.
    + split; [unfold same_process in *; simpl; intuition |].
      exists l, []. rewrite app_nil_r. split; [reflexivity |].
      split; [assumption |]. right.
      cbn [history files stdout set_history set_stdout].
      rewrite Hh, Hout, <- !app_assoc.
      split; [reflexivity |]. split; [reflexivity |]. split; [assumption |].
      left. split; [assumption |]. split; reflexivity.
    + split; [unfold same_process in *; simpl; intuition |].
      exists l, []. rewrite app_nil_r. split; [reflexivity |].
      split; [assumption |]. right.
      cbn [history files stdout set_history set_stdout].
      rewrite Hh, <- !app_assoc.
      split; [reflexivity |]. split; [reflexivity |]. split; [assumption |].
      right. split; [assumption |]. split; [reflexivity | assumption].
  - inversion Hrun; subst; clear Hrun.
    split; [assumption |].
    exists done, (t :: rest'). split; [reflexivity |]. split; [assumption |].
    left. exists t, rest', e, tail, ap. repeat split; assumption.
Qed.

Lemma length_steps E l : length (flat_map (step E) l) = (3 * length l)%nat.
Proof. induction l as [| t l IH]; simpl; lia. Qed.

Lemma succeeded_steps E l : Forall succeeded (flat_map (step E) l).
Proof.
  induction l as [| t l IH]; simpl; [constructor |].
  repeat constructor. assumption.
Qed.

Lemma no_push_steps E l : Forall (λ e, is_push e = false) (flat_map (step E) l).
Proof.
  induction l as [| t l IH]; simpl; [constructor |].
  repeat constructor. assumption.
Qed.

Lemma commits_app h1 h2 : commits (h1 ++ h2) = commits h1 ++ commits h2.
Proof. apply omap_app. Qed.

Lemma commit_of_ev_commit E t : commit_of_event (ev_commit E t (Exited 0)) = Some (commit_for t).
Proof.
  unfold ev_commit, commit_for, commit_env. simpl.
  rewrite lookup_insert_ne by discriminate.
  rewrite !lookup_insert_eq. reflexivity.
Qed.

Lemma commits_steps E l : commits (flat_map (step E) l) = map commit_for l.
Proof.
  induction l as [| t l IH]; [reflexivity |].
  change (flat_map (step E) (t :: l)) with (step E t ++ flat_map (step E) l).
  rewrite commits_app, IH. unfold step, commits.
  cbn [omap list_omap]. rewrite commit_of_ev_commit. reflexivity.
Qed.

Lemma commit_of_failed_run argv env st :
  st ≠ Exited 0 → commit_of_event (Ran argv env st) = None.
Proof. intros Hst. destruct st as [[| p | p] |]; simpl; congruence. Qed.

Lemma commits_failed_run argv env st :
  st ≠ Exited 0 → commits [Ran argv env st] = [].
Proof. intros Hst. destruct st as [[| p | p] |]; try congruence; reflexivity. Qed.

Lemma commits_aborted w n E t tail e appended :
  aborted w n E t tail e appended → commits tail = [].
Proof.
  intros Hab.
  destruct Hab; try (destruct st as [[| p | p] |]; try congruence); reflexivity.
Qed.

Lemma no_push_aborted w n E t tail e appended :
  aborted w n E t tail e appended → Forall (λ e, is_push e = false) tail.
Proof. intros Hab. destruct Hab; repeat constructor. Qed.

Lemma write_lines_snoc f done t :
  write_lines f (done ++ [t]) = write_line (write_lines f done) t.
Proof. unfold write_lines. apply foldl_snoc. Qed.

Lemma take_done {A} (done rest : list A) : take (length done) (done ++ rest) = done.
Proof. apply take_app_length. Qed.

Lemma take_done_next {A} (done : list A) t rest :
  take (S (length done)) (done ++ t :: rest) = done ++ [t].
Proof.
  replace (done ++ t :: rest) with ((done ++ [t]) ++ rest)
    by (rewrite <- app_assoc; reflexivity).
  replace (S (length done)) with (length (done ++ [t]))
    by (rewrite length_app; simpl; lia).
  apply take_app_length.
Qed.

Lemma div3 d r : (r < 3)%nat → ((3 * d + r) / 3)%nat = d.
Proof. intros Hr. symmetry. apply (Nat.div_unique _ 3 d r); lia. Qed.

(** C5: when a call of the external tool made by the replay (stage, commit
    or push) ends with a non-zero exit status, the run stops there with
    [CalledProcessError]: the failed call is the last event (no retry, no
    clean-up), every event before it went well, the commits made are those
    of the timestamps before the failing one and stay, no line is written
    for a later timestamp, and unless the failed call is the push itself no
    push is attempted.  The calls of the [j]-th timestamp are the events
    [3j + 1] (stage) and [3j + 2] (commit): a commit that fails on the 2nd
    of five timestamps is event 5, and leaves exactly one commit. *)
Theorem replay_aborts_on_failure l w r w' k argv env c :
  world_ok w →
  replay l w = (r, w') →
  events_since w w' !! k = Some (Ran argv env (Exited c)) →
  c ≠ 0 →
  r = Raise CalledProcessError
  ∧ length (events_since w w') = S k
  ∧ Forall succeeded (take k (events_since w w'))
  ∧ commits (history w')
    = commits (history w) ++ map commit_for (take (k / 3)%nat l)
  ∧ files w' = write_lines (files w) (take (S (k / 3)%nat) l)
  ∧ stdout w' = stdout w ++ map committed_line (take (k / 3)%nat l)
  ∧ ((k < 3 * length l)%nat →
     Forall (λ e, is_push e = false) (events_since w w')).
Proof.
  intros Hok Hrun Hk Hc.
  apply replay_spec in Hrun as (_ & done & rest & -> & _ & Hcase); [| assumption].
  set (E := deref w (os_environ w)) in *.
  set (n := length (history w)) in *.
  destruct Hcase as [(t & rest' & e & tail & ap & -> & -> & Hab & Hh & Hf & Ho)
                    | (-> & Hh & Hf & Hpush)].
  - rewrite (events_since_app w w' _ Hh) in *.
    apply lookup_app_Some in Hk as [Hk | [Hge Hk]].
    { pose proof (Forall_lookup_1 _ _ _ _ (succeeded_steps E done) Hk) as Hs.
      simpl in Hs. congruence. }
    rewrite length_steps in Hge, Hk.
    assert (Htail : ∃ j, (0 < j < 3)%nat ∧ k = (3 * length done + j)%nat
                         ∧ length tail = S j ∧ ap = true ∧ e = CalledProcessError
                         ∧ Forall succeeded (take j tail)).
    { destruct Hab as [? | st ? ? ? | st ? ? ? ?];
        destruct (k - 3 * length done)%nat as [| [| [| j]]] eqn:Ek;
        simpl in Hk; inversion Hk; subst; try congruence.
      - exists 1%nat. simpl. repeat split; try lia. repeat constructor.
      - exists 2%nat. simpl. repeat split; try lia. repeat constructor. }
    destruct Htail as (j & Hj & -> & Hlen & -> & -> & Hbefore).
    rewrite (div3 (length done) j) by lia.
    rewrite take_done, take_done_next, write_lines_snoc.
    split; [reflexivity |]. split; [rewrite length_app, length_steps; lia |].
    split.
    { rewrite take_app_ge by (rewrite length_steps; lia).
      rewrite length_steps.
      replace (3 * length done + j - 3 * length done)%nat with j by lia.
      apply Forall_app. split; [apply succeeded_steps | assumption]. }
    split.
    { rewrite Hh, !commits_app, commits_steps, (commits_aborted _ _ _ _ _ _ _ Hab).
      rewrite app_nil_r. reflexivity. }
    split; [assumption |]. split; [assumption |].
    intros _. apply Forall_app. split; [apply no_push_steps |].
    eapply no_push_aborted. eassumption.
  - rewrite app_nil_r in *.
    rewrite (events_since_app w w' _ Hh) in *.
    apply lookup_app_Some in Hk as [Hk | [Hge Hk]].
    { pose proof (Forall_lookup_1 _ _ _ _ (succeeded_steps E done) Hk) as Hs.
      simpl in Hs. congruence. }
    rewrite length_steps in Hge, Hk.
    destruct (k - 3 * length done)%nat as [| j] eqn:Ek; simpl in Hk; [| discriminate].
    inversion Hk as [[Hargv Henv Hst]]. clear Hk.
    assert (k = (3 * length done + 0)%nat) as -> by lia.
    rewrite (div3 (length done) 0) by lia.
    rewrite (take_ge done (length done)), (take_ge done (S (length done))) by lia.
    change (tool w (n + 3 * length done) = Exited c) in Hst.
    destruct Hpush as [(Hp & _) | (Hp & -> & Ho)]; [congruence |].
    rewrite Hst. split; [reflexivity |].
    split; [rewrite length_app, length_steps; simpl; lia |].
    split.
    { rewrite take_app_le by (rewrite length_steps; lia).
      rewrite take_ge by (rewrite length_steps; lia).
      apply succeeded_steps. }
    split.
    { rewrite Hh, !commits_app, commits_steps. unfold ev_push.
      rewrite commits_failed_run by congruence.
      rewrite app_nil_r. reflexivity. }
    split; [assumption |]. split; [assumption |]. intros Hlt. lia.
Qed.

Lemma commits_push E st : commits [ev_push E st] = [].
Proof. destruct st as [[| p | p] |]; reflexivity. Qed.

Lemma not_aborted_completes w n E t tail e appended :
  completes w n → ¬ aborted w n E t tail e appended.
Proof.
  intros (Hd & Hs & Hc) Hab. destruct Hab; congruence.
Qed.

(** C6: the replay handles the timestamps in the order of the schedule.
    When every call goes well, each timestamp gives, in this order, one
    line appended to the tracked file, one call staging that file and one
    commit call whose environment sets both the author date and the
    committer date to that timestamp, so that the commit carries them and
    not the tool's clock; one push follows the last commit.  In every run a
    push call is the last event of the run and comes after the complete
    steps of all the timestamps: it is made once, after all commits. *)
Theorem replay_applies_schedule l w r w' :
  world_ok w →
  replay l w = (r, w') →
  let E := deref w (os_environ w) in
  let n := length (history w) in
  ((∀ j, (j < length l)%nat → completes w (n + 3 * j)) →
   tool w (n + 3 * length l) = Exited 0 →
   r = Return ()
   ∧ events_since w w' = flat_map (step E) l ++ [ev_push E (Exited 0)]
   ∧ commits (history w') = commits (history w) ++ map commit_for l
   ∧ files w' = write_lines (files w) l
   ∧ stdout w' = stdout w ++ map committed_line l
                   ++ ["All fake commits have been pushed."%string])
  ∧ (∀ k e,
       events_since w w' !! k = Some e → is_push e = true →
       k = (3 * length l)%nat
       ∧ length (events_since w w') = S k
       ∧ take k (events_since w w') = flat_map (step E) l
       ∧ commits (history w') = commits (history w) ++ map commit_for l).
Proof.
  intros Hok Hrun E n.
  apply replay_spec in Hrun as (_ & done & rest & -> & _ & Hcase); [| assumption].
  fold E n in Hcase.
  destruct Hcase as [(t & rest' & e & tail & ap & -> & -> & Hab & Hh & Hf & Ho)
                    | (-> & Hh & Hf & Hpush)].
  - split.
    + intros Hall _. exfalso.
      eapply not_aborted_completes; [| exact Hab].
      apply Hall. rewrite length_app. simpl. lia.
    + intros k e0 Hk Hp. exfalso.
      rewrite (events_since_app w w' _ Hh) in Hk.
      assert (Hnp : Forall (λ e, is_push e = false) (flat_map (step E) done ++ tail)).
      { apply Forall_app. split; [apply no_push_steps |].
        eapply no_push_aborted. eassumption. }
      pose proof (Forall_lookup_1 _ _ _ _ Hnp Hk) as Hs. simpl in Hs. congruence.
  - rewrite app_nil_r in *.
    rewrite (events_since_app w w' _ Hh).
    split.
    + intros _ Hgo. rewrite Hgo in *.
      destruct Hpush as [(_ & -> & Ho) | (Hp & _)]; [| congruence].
      split; [reflexivity |]. split; [reflexivity |]. split.
      { rewrite Hh, !commits_app, commits_steps, commits_push, app_nil_r.
        reflexivity. }
      split; assumption.
    + intros k e0 Hk Hp.
      apply lookup_app_Some in Hk as [Hk | [Hge Hk]].
      { pose proof (Forall_lookup_1 _ _ _ _ (no_push_steps E done) Hk) as Hs.
        simpl in Hs. congruence. }
      rewrite length_steps in Hge, Hk.
      destruct (k - 3 * length done)%nat as [| j] eqn:Ek; simpl in Hk; [| discriminate].
      assert (k = (3 * length done)%nat) as -> by lia.
      split; [reflexivity |].
      split; [rewrite length_app, length_steps; simpl; lia |].
      split.
      { rewrite take_app_le by (rewrite length_steps; lia).
        apply take_ge. rewrite length_steps. lia. }
      rewrite Hh, !commits_app, commits_steps, commits_push, app_nil_r.
      reflexivity.
Qed.

(** In the .git directory of a repository the check passes: [main] appends
    the first line to dummy.txt there, and stops at the staging that the
    tool refuses. *)
Example main_in_git_dir :
  tool w_git_dir (length (history w_git_dir))
  = fst (rev_parse_is_inside_work_tree InsideGitDir)
  ∧ fst (main w_git_dir) = Raise CalledProcessError
  ∧ files (snd (main w_git_dir)) !! tracked_file
    = Some (line_of (combine (date 2024 6 4) 12 46 31))
  ∧ map succeeded_b (events_since w_git_dir (snd (main w_git_dir)))
    = [true; true; false].
Proof. vm_compute. repeat split. Qed.

(** C7, as stated, fails: [main] looks at the exit status of the check
    only.  Where the process is in a repository but not inside a working
    tree (a bare repository, the .git directory), the check exits with 0
    like inside a working tree, and [main] goes on: dummy.txt is written
    and staging is attempted. *)
Lemma main_proceeds_outside_work_tree :
  ¬ (∀ loc w,
       world_ok w →
       loc ≠ InsideWorkTree →
       tool w (length (history w)) = fst (rev_parse_is_inside_work_tree loc) →
       ∃ r w',
         main w = (r, w')
         ∧ stdout w' = stdout w
                         ++ ["Error: This script must be run inside a Git repository."%string]
         ∧ events_since w w'
           = [Ran ["git"; "rev-parse"; "--is-inside-work-tree"]%string
                (deref w (os_environ w)) (tool w (length (history w)))]
         ∧ files w' = files w
         ∧ commits (history w') = commits (history w)).
Proof.
  intros H.
  assert (Hok : world_ok w_git_dir).
  { unfold world_ok. simpl. rewrite lookup_singleton_eq. eexists. reflexivity. }
  destruct (H InsideGitDir w_git_dir Hok) as (r & w' & Hmain & _ & _ & Hfiles & _).
  - discriminate.
  - vm_compute. reflexivity.
  - assert (Hw' : w' = snd (main w_git_dir)) by (rewrite Hmain; reflexivity).
    rewrite Hw' in Hfiles.
    apply (f_equal (λ f : gmap string string, f !! tracked_file)) in Hfiles.
    vm_compute in Hfiles. discriminate Hfiles.
Qed.

(** C7, amended: when the check of the working directory ends with a
    non-zero exit status, as it does outside every repository, [main]
    prints the error and returns: that one call is all the run did.  No
    file is written, no commit is made, nothing is staged, committed or
    pushed, and nothing is drawn. *)
Theorem main_outside_repository w c :
  tool w (length (history w)) = Exited c →
  c ≠ 0 →
  ∃ w',
    main w = (Return (), w')
    ∧ stdout w' = stdout w
                    ++ ["Error: This script must be run inside a Git repository."%string]
    ∧ events_since w w'
      = [Ran ["git"; "rev-parse"; "--is-inside-work-tree"]%string
           (deref w (os_environ w)) (Exited c)]
    ∧ files w' = files w
    ∧ commits (history w') = commits (history w)
    ∧ heap w' = heap w ∧ random w' = random w.
Proof.
  intros Htool Hc. unfold main, bind, try.
  rewrite subprocess_run_spec. simpl. rewrite Htool.
  destruct (decide (Exited c = Exited 0)) as [Heq | _]; [congruence |].
  simpl. eexists. split; [reflexivity |]. simpl.
  split; [reflexivity |].
  split; [apply events_since_app; reflexivity |].
  split; [reflexivity |].
  split; [| split; reflexivity].
  rewrite commits_app, commits_failed_run by congruence.
  apply app_nil_r.
Qed.

Lemma own_environment_steps E l done :
  done ⊆ l → Forall (own_environment E l) (flat_map (step E) done).
Proof.
  induction done as [| t done IH]; intros Hsub; simpl; [constructor |].
  constructor; [exact I |].
  constructor; [left; split; [reflexivity | left; reflexivity] |].
  constructor.
  - right. exists t. split; [apply Hsub; left | split; reflexivity].
  - apply IH. intros x Hx. apply Hsub. right. assumption.
Qed.

Lemma own_environment_aborted w n E l t tail e appended :
  t ∈ l → aborted w n E t tail e appended → Forall (own_environment E l) tail.
Proof.
  intros Ht Hab.
  assert (Hstage : ∀ st, own_environment E l (ev_stage E st))
    by (intros st; left; split; [reflexivity | left; reflexivity]).
  assert (Hcommit : ∀ st, own_environment E l (ev_commit E t st))
    by (intros st; right; exists t; split; [assumption | split; reflexivity]).
  destruct Hab; repeat (apply Forall_cons; split); auto using Forall_nil;
    try exact I; apply Forall_nil.
Qed.

(** C8: the overrides are set in a copy of [os.environ].  Whatever
    [make_commit] does, [os.environ] is the same object with the same
    contents afterwards; and in a replay every stage and push call runs in
    the unchanged environment of the process, every commit call in that
    environment with the dates of its own timestamp: no override of an
    earlier commit is seen by a later call. *)
Theorem environ_override_is_local :
  (∀ t w r w',
     world_ok w → make_commit t w = (r, w') →
     os_environ w' = os_environ w
     ∧ deref w' (os_environ w') = deref w (os_environ w))
  ∧ (∀ l w r w',
       world_ok w → replay l w = (r, w') →
       deref w' (os_environ w') = deref w (os_environ w)
       ∧ Forall (own_environment (deref w (os_environ w)) l) (events_since w w')).
Proof.
  split.
  - intros t w r w' Hok Hrun.
    apply make_commit_spec in Hrun as [(Henv & HE & _) _]; [| assumption].
    split; assumption.
  - intros l w r w' Hok Hrun.
    apply replay_spec in Hrun as (Hsame & done & rest & -> & _ & Hcase);
      [| assumption].
    destruct Hsame as (_ & HE & _).
    split; [exact HE |].
    set (E := deref w (os_environ w)) in *.
    destruct Hcase as [(t & rest' & e & tail & ap & -> & -> & Hab & Hh & Hf & Ho)
                      | (-> & Hh & Hf & Hpush)];
      rewrite (events_since_app w w' _ Hh).
    + apply Forall_app. split.
      * apply own_environment_steps. intros x Hx. apply elem_of_app.
        left. exact Hx.
      * apply (own_environment_aborted _ _ _ _ _ _ _ _
                 (proj2 (elem_of_app done (t :: rest') t)
                    (or_intror (list_elem_of_here t rest'))) Hab).
    + apply Forall_app. split.
      * apply own_environment_steps. reflexivity.
      * constructor; [| constructor].
        left. split; [reflexivity | right; reflexivity].
Qed.

(** C9: when the stage call or the commit call of [make_commit] does not
    end with exit status 0, the exception leaves [make_commit] with the
    line already in the tracked file: the append is the first event, the
    stage call comes after it, and nothing takes the line back. *)
Theorem make_commit_append_not_rolled_back t w r w' k argv env st :
  world_ok w →
  make_commit t w = (r, w') →
  events_since w w' !! k = Some (Ran argv env st) →
  st ≠ Exited 0 →
  r = Raise (exn_of st)
  ∧ files w' !! tracked_file
    = Some (default EmptyString (files w !! tracked_file) +:+ line_of t)%string
  ∧ (∀ name, name ≠ tracked_file → files w' !! name = files w !! name)
  ∧ (∃ st1 later,
       events_since w w'
       = ev_append t :: ev_stage (deref w (os_environ w)) st1 :: later)
  ∧ length (events_since w w') = S k.
Proof.
  intros Hok Hrun Hk Hst.
  apply make_commit_spec in Hrun as [_ Hcase]; [| assumption].
  set (E := deref w (os_environ w)) in *.
  destruct Hcase as [(-> & _ & Hh & Hf & Ho)
                    | (e & tail & ap & -> & Hab & Hh & Hf & Ho)];
    rewrite (events_since_app w w' _ Hh) in *.
  - exfalso.
    pose proof (Forall_lookup_1 _ _ _ _ (succeeded_steps E [t]) Hk) as Hs.
    simpl in Hs. congruence.
  - assert (Hfile : ∀ f, write_line f t !! tracked_file
                         = Some (default EmptyString (f !! tracked_file)
                                 +:+ line_of t)%string)
      by (intros f; apply lookup_insert_eq).
    assert (Hother : ∀ f name, name ≠ tracked_file →
                               write_line f t !! name = f !! name)
      by (intros f name Hne; apply lookup_insert_ne; congruence).
    destruct Hab as [? | st0 ? ? ? | st0 ? ? ? ?];
      destruct k as [| [| [| k]]]; simpl in Hk; inversion Hk; subst;
      try congruence; rewrite Hf;
      (split; [reflexivity |]); (split; [apply Hfile |]);
      (split; [apply Hother |]); (split; [| reflexivity]);
      eexists _, _; reflexivity.
Qed.

(** When the check succeeds, [main] draws the schedule from 2024-06-01 to
    the present moment, announces it and replays it. *)
Lemma main_inside_repository w l st' :
  tool w (length (history w)) = Exited 0 →
  generate_commit_dates (date 2024 6 1) (clock w) (random w) = (Return l, st') →
  main w
  = replay l
      (set_stdout
         (stdout w
          ++ [("Generating " +:+ decimal (Z.of_nat (length l))
               +:+ " fake commits from " +:+ isoformat (date 2024 6 1)
               +:+ " to " +:+ isoformat (dt_date (clock w)) +:+ "...")%string])
         (set_random st'
            (set_history
               (history w
                ++ [Ran ["git"; "rev-parse"; "--is-inside-work-tree"]%string
                      (deref w (os_environ w)) (Exited 0)]) w))).
Proof.
  intros Htool Hgen. unfold main, bind, try.
  rewrite subprocess_run_spec. simpl. rewrite Htool. simpl.
  unfold zoom. simpl. rewrite Hgen. reflexivity.
Qed.

Lemma desk_ok tool disk : world_ok (desk tool disk).
Proof. unfold world_ok. simpl. rewrite lookup_singleton_eq. eexists. reflexivity. Qed.

(** The commit step fails on the 2nd of five timestamps: one commit is made,
    the lines of the first two timestamps are in the file, nothing is pushed. *)
Lemma replay_aborts_on_failure_witness :
  fst (replay five w_commit_fails) = Raise CalledProcessError
  ∧ length (events_since w_commit_fails (snd (replay five w_commit_fails))) = 6%nat
  ∧ Forall succeeded
      (take 5 (events_since w_commit_fails (snd (replay five w_commit_fails))))
  ∧ commits (history (snd (replay five w_commit_fails))) = [commit_for t1]
  ∧ files (snd (replay five w_commit_fails)) = write_lines ∅ [t1; t2]
  ∧ stdout (snd (replay five w_commit_fails)) = [committed_line t1]
  ∧ ((5 < 3 * 5)%nat →
     Forall (λ e, is_push e = false)
       (events_since w_commit_fails (snd (replay five w_commit_fails)))).
Proof.
  assert (Hrun : replay five w_commit_fails
                 = (Raise CalledProcessError, snd (replay five w_commit_fails)))
    by (vm_compute; reflexivity).
  rewrite Hrun at 1.
  apply (replay_aborts_on_failure five w_commit_fails (Raise CalledProcessError)
           (snd (replay five w_commit_fails)) 5
           ["git"; "commit"; "--allow-empty"; "-m"; message_of t2]%string
           (commit_env home_env t2) 1).
  - apply desk_ok.
  - exact Hrun.
  - vm_compute. reflexivity.
  - lia.
Defined.

Lemma replay_applies_schedule_witness :
  (fst (replay five w_fine) = Return ()
   ∧ events_since w_fine (snd (replay five w_fine))
     = flat_map (step home_env) five ++ [ev_push home_env (Exited 0)]
   ∧ commits (history (snd (replay five w_fine))) = map commit_for five
   ∧ files (snd (replay five w_fine)) = write_lines ∅ five
   ∧ stdout (snd (replay five w_fine))
     = map committed_line five ++ ["All fake commits have been pushed."%string])
  ∧ (∀ k e,
       events_since w_fine (snd (replay five w_fine)) !! k = Some e →
       is_push e = true →
       k = 15%nat
       ∧ length (events_since w_fine (snd (replay five w_fine))) = S k
       ∧ take k (events_since w_fine (snd (replay five w_fine)))
         = flat_map (step home_env) five
       ∧ commits (history (snd (replay five w_fine))) = map commit_for five).
Proof.
  assert (Hrun : replay five w_fine = (Return (), snd (replay five w_fine)))
    by (vm_compute; reflexivity).
  rewrite Hrun at 1.
  destruct (replay_applies_schedule five w_fine (Return ())
              (snd (replay five w_fine)) (desk_ok _ _) Hrun) as [Hgood Hpush].
  split.
  - apply Hgood.
    + intros j Hj. unfold completes. repeat split; reflexivity.
    + reflexivity.
  - exact Hpush.
Defined.

Lemma main_outside_repository_witness :
  ∃ w',
    main w_outside = (Return (), w')
    ∧ stdout w' = ["Error: This script must be run inside a Git repository."%string]
    ∧ events_since w_outside w'
      = [Ran ["git"; "rev-parse"; "--is-inside-work-tree"]%string
           home_env (Exited 128)]
    ∧ files w' = ∅
    ∧ commits (history w') = []
    ∧ heap w' = heap w_outside ∧ random w' = random w_outside.
Proof.
  apply (main_outside_repository w_outside 128).
  - vm_compute. reflexivity.
  - lia.
Defined.

Lemma environ_override_is_local_witness :
  (os_environ (snd (make_commit t1 w_fine)) = os_environ w_fine
   ∧ deref (snd (make_commit t1 w_fine)) (os_environ (snd (make_commit t1 w_fine)))
     = home_env)
  ∧ (deref (snd (replay five w_fine)) (os_environ (snd (replay five w_fine)))
     = home_env
     ∧ Forall (own_environment home_env five)
         (events_since w_fine (snd (replay five w_fine)))).
Proof.
  destruct environ_override_is_local as [Hone Hall].
  split.
  - apply (Hone t1 w_fine (Return ()) (snd (make_commit t1 w_fine))).
    + apply desk_ok.
    + vm_compute. reflexivity.
  - apply (Hall five w_fine (Return ()) (snd (replay five w_fine))).
    + apply desk_ok.
    + vm_compute. reflexivity.
Defined.

Lemma make_commit_append_not_rolled_back_witness :
  fst (make_commit t1 w_one_commit_fails) = Raise CalledProcessError
  ∧ files (snd (make_commit t1 w_one_commit_fails)) !! tracked_file
    = Some (line_of t1)
  ∧ (∀ name, name ≠ tracked_file →
       files (snd (make_commit t1 w_one_commit_fails)) !! name
       = files w_one_commit_fails !! name)
  ∧ (∃ st1 later,
       events_since w_one_commit_fails (snd (make_commit t1 w_one_commit_fails))
       = ev_append t1 :: ev_stage home_env st1 :: later)
  ∧ length (events_since w_one_commit_fails
              (snd (make_commit t1 w_one_commit_fails))) = 3%nat.
Proof.
  assert (Hrun : make_commit t1 w_one_commit_fails
                 = (Raise CalledProcessError,
                    snd (make_commit t1 w_one_commit_fails)))
    by (vm_compute; reflexivity).
  rewrite Hrun at 1.
  apply (make_commit_append_not_rolled_back t1 w_one_commit_fails
           (Raise CalledProcessError) (snd (make_commit t1 w_one_commit_fails)) 2
           ["git"; "commit"; "--allow-empty"; "-m"; message_of t1]%string
           (commit_env home_env t1) (Exited 1)).
  - apply desk_ok.
  - exact Hrun.
  - vm_compute. reflexivity.
  - discriminate.
Defined.

(** The end-to-end run of one week, from 2024-06-01 to 2024-06-08: one
    window, three commits in the order of the schedule, each with both dates
    equal to its timestamp, then the push. *)
Example main_one_week :
  fst (main w_one_week) = Return ()
  ∧ map authored_at (commits (history (snd (main w_one_week))))
    = [Some "2024-06-04T12:46:31"; Some "2024-06-04T16:06:55";
       Some "2024-06-04T16:10:51"]%string
  ∧ map committed_at (commits (history (snd (main w_one_week))))
    = map authored_at (commits (history (snd (main w_one_week))))
  ∧ map is_push (history (snd (main w_one_week)))
    = [false; false; false; false; false; false; false; false; false; false; true].
Proof. vm_compute. repeat split. Qed.

(** * Further properties of the script *)

(** ** The weeks of the schedule *)

Lemma filter_in_days_all lo l :
  Forall (in_days lo) l → filter (in_days lo) l = l.
Proof.
  induction 1 as [| t l Ht _ IH]; [reflexivity |].
  rewrite filter_cons_True by assumption. congruence.
Qed.

Lemma filter_in_days_none lo l :
  Forall (λ t, ¬ in_days lo t) l → filter (in_days lo) l = [].
Proof.
  induction 1 as [| t l Ht _ IH]; [reflexivity |].
  rewrite filter_cons_False by assumption. assumption.
Qed.

(** The loop collects one chunk of three to five commits per window, each
    commit dated in its window. *)
Lemma weekly_loop_chunks end_date (k : nat) :
  ∀ current acc st l st',
    dt_date end_date - current ≤ 7 * Z.of_nat k →
    MINORDINAL ≤ current →
    weekly_loop end_date current acc st = (Return l, st') →
    ∃ chunks : list (list datetime),
      l = acc ++ concat chunks
      ∧ Z.of_nat (length chunks) = weeks current end_date
      ∧ ∀ (i : nat) chunk,
          chunks !! i = Some chunk →
          (3 ≤ length chunk ≤ 5)%nat
          ∧ Forall (in_window (current + 7 * Z.of_nat i) end_date) chunk.
Proof.
  induction k as [| k IH]; intros current acc st l st' Hk Hmin Hrun;
    rewrite weekly_loop_turn in Hrun;
    destruct (current <? dt_date end_date) eqn:Hlt;
    try (apply Z.ltb_lt in Hlt; lia).
  - apply Z.ltb_ge in Hlt. inversion Hrun; subst.
    exists []. simpl. rewrite app_nil_r, weeks_done by assumption.
    split; [reflexivity |]. split; [reflexivity |].
    intros i chunk Hi. rewrite lookup_nil in Hi. discriminate.
  - apply Z.ltb_lt in Hlt.
    destruct (week current end_date acc st) as [[acc' | e] st1] eqn:Ew;
      [| inversion Hrun].
    apply week_spec in Ew as [_ Hw]; [| lia].
    destruct Hw as (new1 & -> & Hlen1 & _ & Hall1).
    destruct (date_add_spec current 7 _ eq_refl) as [[E Hd] | [E Hd]];
      rewrite E in Hrun; [| inversion Hrun].
    apply IH in Hrun as (chunks & -> & Hn & Hchunks); [| lia | lia].
    exists (new1 :: chunks). simpl. rewrite <- app_assoc.
    split; [reflexivity |].
    split; [rewrite (weeks_step current) by assumption; lia |].
    intros [| i] chunk Hi; simpl in Hi.
    + inversion Hi; subst. rewrite Z.mul_0_r, Z.add_0_r. split; assumption.
    + apply Hchunks in Hi as [Hlen Hall]. split; [assumption |].
      replace (current + 7 * Z.of_nat (S i)) with (current + 7 + 7 * Z.of_nat i)
        by lia.
      assumption.
  - apply Z.ltb_ge in Hlt. inversion Hrun; subst.
    exists []. simpl. rewrite app_nil_r, weeks_done by assumption.
    split; [reflexivity |]. split; [reflexivity |].
    intros i chunk Hi. rewrite lookup_nil in Hi. discriminate.
Qed.

(** In a list of chunks where the [i]-th chunk is dated in the [i]-th week
    after [lo], the commits of a week are those of its chunk. *)
Lemma filter_concat_chunks (chunks : list (list datetime)) :
  ∀ lo (j : nat) chunk,
    (∀ (i : nat) ch, chunks !! i = Some ch →
                     Forall (in_days (lo + 7 * Z.of_nat i)) ch) →
    chunks !! j = Some chunk →
    filter (in_days (lo + 7 * Z.of_nat j)) (concat chunks) = chunk.
Proof.
  induction chunks as [| ch chunks IH]; intros lo j chunk Hall Hj.
  - rewrite lookup_nil in Hj. discriminate.
  - simpl. rewrite filter_app.
    assert (Hrest : ∀ (i : nat) c, chunks !! i = Some c →
                      Forall (in_days (lo + 7 + 7 * Z.of_nat i)) c).
    { intros i c Hi. specialize (Hall (S i) c Hi).
      replace (lo + 7 + 7 * Z.of_nat i) with (lo + 7 * Z.of_nat (S i)) by lia.
      assumption. }
    destruct j as [| j]; simpl in Hj.
    + inversion Hj; subst. rewrite Z.mul_0_r, Z.add_0_r.
      rewrite filter_in_days_all
        by (specialize (Hall 0%nat chunk eq_refl);
            rewrite Z.mul_0_r, Z.add_0_r in Hall; assumption).
      rewrite filter_in_days_none; [apply app_nil_r |].
      apply Forall_concat. apply Forall_lookup_2. intros i c Hi.
      eapply Forall_impl; [apply (Hrest i c Hi) |].
      unfold in_days. intros t. lia.
    + rewrite filter_in_days_none.
      * replace (lo + 7 * Z.of_nat (S j)) with (lo + 7 + 7 * Z.of_nat j) by lia.
        apply IH; assumption.
      * eapply Forall_impl; [apply (Hall 0%nat ch eq_refl) |].
        unfold in_days. intros t. lia.
Qed.

Lemma in_window_in_days current end_date t :
  in_window current end_date t → in_days current t.
Proof. unfold in_window, in_days. lia. Qed.

(** X1: each week of the range gets its three to five commits.  When the
    start date is before the end's date and the range has n = ceil(D / 7)
    windows, the returned schedule holds, for every k < n, between 3 and 5
    commits dated in the seven days that start at start + 7k. *)
Theorem generate_commit_dates_week_counts start_date end_date st l st' n k :
  valid_date start_date →
  7 * (n - 1) < dt_date end_date - start_date ≤ 7 * n →
  generate_commit_dates start_date end_date st = (Return l, st') →
  0 ≤ k < n →
  (3 ≤ length (commits_of_week start_date k l) ≤ 5)%nat.
Proof.
  intros [Hmin _] Hn Hrun Hk.
  unfold generate_commit_dates, bind, ret in Hrun.
  destruct (weekly_loop end_date start_date [] st) as [[new | e] st1] eqn:Eloop;
    inversion Hrun; subst; clear Hrun.
  apply (weekly_loop_chunks end_date
           (Z.to_nat (dt_date end_date - start_date))) in Eloop
    as (chunks & -> & Hlen & Hchunks); [| lia | assumption].
  rewrite (weeks_ceil start_date end_date n) in Hlen by lia.
  simpl. unfold commits_of_week.
  rewrite (Permutation_length
             (filter_Permutation _ _ _ (sort_perm (concat chunks)))).
  destruct (chunks !! Z.to_nat k) as [chunk |] eqn:Hchunk.
  2:{ apply lookup_ge_None in Hchunk. lia. }
  assert (Hkj : k = Z.of_nat (Z.to_nat k)) by lia.
  rewrite Hkj.
  rewrite (filter_concat_chunks chunks start_date (Z.to_nat k) chunk).
  - apply (Hchunks _ _ Hchunk).
  - intros i ch Hi. eapply Forall_impl; [apply (Hchunks _ _ Hi) |].
    intros t. apply in_window_in_days.
  - assumption.
Qed.

Lemma generate_commit_dates_week_counts_witness :
  ∃ l st',
    generate_commit_dates june_1 june_12_afternoon varied_tape = (Return l, st')
    ∧ (3 ≤ length (commits_of_week june_1 0 l) ≤ 5)%nat
    ∧ (3 ≤ length (commits_of_week june_1 1 l) ≤ 5)%nat.
Proof.
  eexists _, _. split; [vm_compute; reflexivity |].
  split.
  - eapply (generate_commit_dates_week_counts june_1 june_12_afternoon
              varied_tape _ _ 2 0).
    + exact valid_june_1.
    + vm_compute. split; [reflexivity | discriminate].
    + vm_compute. reflexivity.
    + lia.
  - eapply (generate_commit_dates_week_counts june_1 june_12_afternoon
              varied_tape _ _ 2 1).
    + exact valid_june_1.
    + vm_compute. split; [reflexivity | discriminate].
    + vm_compute. reflexivity.
    + lia.
Defined.

(** X2: over whole weeks the bound of the whole instant holds.  When the
    end's date is the start date plus 7W days, no commit is dated on the
    end's day: every timestamp of the returned schedule is at or after the
    start's midnight and strictly before the end, whatever the end's time
    of day. *)
Theorem generate_commit_dates_whole_weeks_before_end start_date end_date st l st' W :
  valid_date start_date →
  0 ≤ W →
  dt_date end_date = start_date + 7 * W →
  generate_commit_dates start_date end_date st = (Return l, st') →
  Forall (λ t, datetime_le (midnight start_date) t ∧ datetime_lt t end_date) l.
Proof.
  intros [Hmin _] HW Hend Hrun.
  unfold generate_commit_dates, bind, ret in Hrun.
  destruct (weekly_loop end_date start_date [] st) as [[new | e] st1] eqn:Eloop;
    inversion Hrun; subst; clear Hrun.
  apply (weekly_loop_chunks end_date
           (Z.to_nat (dt_date end_date - start_date))) in Eloop
    as (chunks & -> & Hlen & Hchunks); [| lia | assumption].
  assert (Hweeks : weeks start_date end_date = W).
  { unfold weeks. rewrite Hend. Z.div_mod_to_equations. lia. }
  rewrite Hweeks in Hlen. simpl. rewrite sort_perm.
  apply Forall_concat. apply Forall_lookup_2. intros i chunk Hi.
  pose proof (lookup_lt_Some _ _ _ Hi) as Hlt.
  apply Hchunks in Hi as [_ Hall].
  eapply Forall_impl; [exact Hall |].
  intros t Ht. split.
  - apply (sampled_instant start_date end_date).
    eapply in_window_sampled; [| exact Ht]. lia.
  - apply datetime_lt_date. unfold in_window in Ht. lia.
Qed.

Lemma generate_commit_dates_whole_weeks_before_end_witness :
  ∃ l st',
    generate_commit_dates june_1 june_15_midnight varied_tape = (Return l, st')
    ∧ Forall (λ t, datetime_le (midnight june_1) t ∧ datetime_lt t june_15_midnight) l.
Proof.
  eexists _, _. split; [vm_compute; reflexivity |].
  eapply (generate_commit_dates_whole_weeks_before_end june_1 june_15_midnight
            varied_tape _ _ 2).
  - exact valid_june_1.
  - lia.
  - vm_compute. reflexivity.
  - vm_compute. reflexivity.
Defined.

Lemma week_commits_same_day n current e1 e2 acc st :
  dt_date e1 = dt_date e2 →
  week_commits n current e1 acc st = week_commits n current e2 acc st.
Proof.
  intros Hd. revert acc st.
  induction n as [| n IH]; intros acc st; [reflexivity |].
  simpl. unfold bind, draw_commit. rewrite Hd.
  destruct (bind _ _ st) as [[t | e] st1]; [apply IH | reflexivity].
Qed.

Lemma weekly_loop_same_day e1 e2 (k : nat) :
  dt_date e1 = dt_date e2 →
  ∀ current acc st,
    dt_date e1 - current ≤ 7 * Z.of_nat k →
    weekly_loop e1 current acc st = weekly_loop e2 current acc st.
Proof.
  intros Hd.
  induction k as [| k IH]; intros current acc st Hk;
    rewrite (weekly_loop_turn e1), (weekly_loop_turn e2), <- Hd;
    destruct (current <? dt_date e1) eqn:Hlt; try reflexivity;
    apply Z.ltb_lt in Hlt; try lia.
  unfold week, bind.
  destruct (randint 3 5 st) as [[c | e] st0]; [| reflexivity].
  rewrite (week_commits_same_day _ _ e1 e2) by assumption.
  destruct (week_commits (Z.to_nat c) current e2 acc st0) as [[acc' | e] st1];
    [| reflexivity].
  unfold date_add.
  destruct ((MINORDINAL <=? current + 7) && (current + 7 <=? MAXORDINAL));
    [| reflexivity].
  apply IH. lia.
Qed.

(** X3: only the calendar date of the end matters.  Two end instants on
    the same day give, from the same state of the generator, the same
    schedule and the same final state. *)
Theorem generate_commit_dates_ignores_time_of_day start_date e1 e2 st :
  dt_date e1 = dt_date e2 →
  generate_commit_dates start_date e1 st = generate_commit_dates start_date e2 st.
Proof.
  intros Hd. unfold generate_commit_dates, bind.
  rewrite (weekly_loop_same_day e1 e2 (Z.to_nat (dt_date e1 - start_date)) Hd)
    by lia.
  reflexivity.
Qed.

Lemma generate_commit_dates_ignores_time_of_day_witness :
  generate_commit_dates june_1 june_12_afternoon varied_tape
  = generate_commit_dates june_1 (midnight (date 2024 6 12)) varied_tape.
Proof.
  apply generate_commit_dates_ignores_time_of_day. vm_compute. reflexivity.
Defined.

Lemma weekly_loop_returns_fits end_date (k : nat) :
  ∀ current acc st l st',
    dt_date end_date - current ≤ 7 * Z.of_nat k →
    current < dt_date end_date →
    weekly_loop end_date current acc st = (Return l, st') →
    current + 7 * weeks current end_date ≤ MAXORDINAL.
Proof.
  induction k as [| k IH]; intros current acc st l st' Hk Hlt Hrun; [lia |].
  rewrite weekly_loop_turn in Hrun.
  destruct (current <? dt_date end_date) eqn:E0; [| apply Z.ltb_ge in E0; lia].
  destruct (week current end_date acc st) as [[acc' | e] st1]; [| inversion Hrun].
  destruct (date_add_spec current 7 _ eq_refl) as [[E Hd] | [E Hd]];
    rewrite E in Hrun; [| inversion Hrun].
  rewrite (weeks_step current) by assumption.
  destruct (Z_lt_dec (current + 7) (dt_date end_date)) as [Hnext | Hlast].
  - apply IH in Hrun; [lia | lia | assumption].
  - rewrite (weeks_done (current + 7)) by lia. lia.
Qed.

(** X4: a range whose last window reaches beyond the last date of the
    calendar cannot be scheduled.  When the start date is before the end's
    date, n = ceil(D / 7) and start + 7n is later than 9999-12-31,
    [generate_commit_dates] raises [OverflowError] whatever is drawn. *)
Theorem generate_commit_dates_overflows start_date end_date st n :
  valid_date start_date →
  start_date < dt_date end_date →
  7 * (n - 1) < dt_date end_date - start_date ≤ 7 * n →
  MAXORDINAL < start_date + 7 * n →
  ∃ st', generate_commit_dates start_date end_date st = (Raise OverflowError, st').
Proof.
  intros [Hmin _] Hlt Hn Hover.
  assert (Hweeks : weeks start_date end_date = n) by (apply weeks_ceil; lia).
  destruct (generate_commit_dates start_date end_date st) as [[l | e] st'] eqn:Hrun.
  - exfalso. unfold generate_commit_dates, bind, ret in Hrun.
    destruct (weekly_loop end_date start_date [] st) as [[new | e] st1] eqn:Eloop;
      inversion Hrun; subst; clear Hrun.
    apply (weekly_loop_returns_fits end_date
             (Z.to_nat (dt_date end_date - start_date))) in Eloop; lia.
  - apply generate_commit_dates_spec in Hrun as (_ & -> & _); [| assumption].
    exists st'. reflexivity.
Qed.

Lemma generate_commit_dates_overflows_witness :
  ∃ st',
    generate_commit_dates (date 9999 12 30) (midnight (date 9999 12 31)) varied_tape
    = (Raise OverflowError, st').
Proof.
  apply (generate_commit_dates_overflows (date 9999 12 30)
           (midnight (date 9999 12 31)) varied_tape 1).
  - unfold valid_date, MINORDINAL, MAXORDINAL. vm_compute. split; discriminate.
  - vm_compute. reflexivity.
  - vm_compute. split; [reflexivity | discriminate].
  - vm_compute. reflexivity.
Defined.

(** ** Failures of every kind during the replay *)

Lemma div3_up d r : (0 < r ≤ 3)%nat → ((3 * d + r + 2) / 3)%nat = S d.
Proof.
  intros Hr. symmetry.
  apply (Nat.div_unique _ 3 (S d) (r - 1)); lia.
Qed.

(** X5: the replay stops at the first event that goes wrong, whatever goes
    wrong: an append that fails ([OSError]), a call that cannot be started
    ([FileNotFoundError]) or that ends with a non-zero exit status.  That
    event is the last one, the exception is its own, and the commits and
    the progress lines are those of the timestamps before it.  When a call
    of the tool fails, the tracked file has the whole lines of the
    timestamps up to the failing one.  When an append fails, it has the
    whole lines of the timestamps before, and of the line of the failing
    timestamp whatever the failed append left: nothing if the file could
    not be opened, else the part that was written (the file then exists,
    were it empty). *)
Theorem replay_stops_at_first_failure l w r w' k e :
  world_ok w →
  replay l w = (r, w') →
  events_since w w' !! k = Some e →
  ¬ succeeded e →
  r = Raise (exn_of_event e)
  ∧ length (events_since w w') = S k
  ∧ Forall succeeded (take k (events_since w w'))
  ∧ commits (history w')
    = commits (history w) ++ map commit_for (take (k / 3)%nat l)
  ∧ stdout w' = stdout w ++ map committed_line (take (k / 3)%nat l)
  ∧ match e with
    | Ran _ _ _ => files w' = write_lines (files w) (take ((k + 2) / 3)%nat l)
    | _ =>
        ∃ t, l !! (k / 3)%nat = Some t
             ∧ files w' = tear w (length (history w) + k)
                            (write_lines (files w) (take (k / 3)%nat l)) t
    end.
Proof.
  intros Hok Hrun Hk Hbad.
  apply replay_spec in Hrun as (_ & done & rest & -> & _ & Hcase); [| assumption].
  set (E := deref w (os_environ w)) in *.
  set (n := length (history w)) in *.
  destruct Hcase as [(t & rest' & x & tail & ap & -> & -> & Hab & Hh & Hf & Ho)
                    | (-> & Hh & Hf & Hpush)].
  - rewrite (events_since_app w w' _ Hh) in *.
    apply lookup_app_Some in Hk as [Hk | [Hge Hk]].
    { exfalso. apply Hbad.
      exact (Forall_lookup_1 _ _ _ _ (succeeded_steps E done) Hk). }
    rewrite length_steps in Hge, Hk.
    assert (Htail : ∃ j, (j < 3)%nat ∧ k = (3 * length done + j)%nat
                         ∧ length tail = S j ∧ x = exn_of_event e
                         ∧ Forall succeeded (take j tail)
                         ∧ match e with
                           | Ran _ _ _ => (0 < j)%nat ∧ ap = true
                           | _ => j = 0%nat ∧ ap = false
                           end).
    { destruct Hab as [? | st ? ? ? | st ? ? ? ?];
        destruct (k - 3 * length done)%nat as [| [| [| j]]] eqn:Ek;
        simpl in Hk; inversion Hk; subst; simpl in Hbad;
        try (exfalso; apply Hbad; first [exact I | reflexivity]).
      - exists 0%nat. simpl. repeat split; try lia. constructor.
      - exists 1%nat. simpl. repeat split; try lia. repeat constructor.
      - exists 2%nat. simpl. repeat split; try lia. repeat constructor. }
    destruct Htail as (j & Hj & -> & Hlen & -> & Hbefore & Hshape).
    rewrite (div3 (length done) j) by lia.
    rewrite take_done.
    split; [reflexivity |].
    split; [rewrite length_app, length_steps; lia |].
    split.
    { rewrite take_app_ge by (rewrite length_steps; lia).
      rewrite length_steps.
      replace (3 * length done + j - 3 * length done)%nat with j by lia.
      apply Forall_app. split; [apply succeeded_steps | assumption]. }
    split.
    { rewrite Hh, !commits_app, commits_steps, (commits_aborted _ _ _ _ _ _ _ Hab).
      rewrite app_nil_r. reflexivity. }
    split; [assumption |].
    assert (Htorn : j = 0%nat ∧ ap = false →
              ∃ t0, (done ++ t :: rest') !! length done = Some t0
                    ∧ files w' = tear w (n + (3 * length done + j))
                                   (write_lines (files w) done) t0).
    { intros [-> ->]. exists t. split; [apply list_lookup_middle; reflexivity |].
      rewrite Nat.add_0_r. exact Hf. }
    destruct e as [? ? | ? | ? ? ?]; try (apply (Htorn Hshape)).
    destruct Hshape as [Hpos ->].
    rewrite (div3_up (length done) j) by lia.
    rewrite take_done_next, write_lines_snoc. exact Hf.
  - rewrite app_nil_r in *.
    rewrite (events_since_app w w' _ Hh) in *.
    apply lookup_app_Some in Hk as [Hk | [Hge Hk]].
    { exfalso. apply Hbad.
      exact (Forall_lookup_1 _ _ _ _ (succeeded_steps E done) Hk). }
    rewrite length_steps in Hge, Hk.
    destruct (k - 3 * length done)%nat as [| j] eqn:Ek; simpl in Hk; [| discriminate].
    inversion Hk; subst e. clear Hk. simpl in Hbad.
    change (tool w (n + 3 * length done) ≠ Exited 0) in Hbad.
    assert (k = (3 * length done + 0)%nat) as -> by lia.
    rewrite (div3 (length done) 0) by lia.
    replace (3 * length done + 0 + 2)%nat with (3 * length done + 2)%nat by lia.
    rewrite (div3 (length done) 2) by lia.
    rewrite (take_ge done (length done)) by lia.
    destruct Hpush as [(Hp & _) | (Hp & -> & Ho)]; [congruence |].
    split; [reflexivity |].
    split; [rewrite length_app, length_steps; simpl; lia |].
    split.
    { rewrite take_app_le by (rewrite length_steps; lia).
      rewrite take_ge by (rewrite length_steps; lia).
      apply succeeded_steps. }
    split.
    { rewrite Hh, !commits_app, commits_steps. unfold ev_push.
      rewrite commits_failed_run by assumption.
      rewrite app_nil_r. reflexivity. }
    split; assumption.
Qed.

Lemma disk_full_at_ok k : world_ok (disk_full_at k).
Proof. unfold world_ok. simpl. rewrite lookup_singleton_eq. eexists. reflexivity. Qed.

(** The append of the 2nd of five timestamps fails after five characters:
    one commit is made, the file has the line of the 1st timestamp followed
    by "Fake ", and nothing is staged or pushed after the failure. *)
Lemma replay_stops_at_first_failure_witness :
  fst (replay five w_disk_full) = Raise OSError
  ∧ length (events_since w_disk_full (snd (replay five w_disk_full))) = 4%nat
  ∧ Forall succeeded
      (take 3 (events_since w_disk_full (snd (replay five w_disk_full))))
  ∧ commits (history (snd (replay five w_disk_full))) = [commit_for t1]
  ∧ stdout (snd (replay five w_disk_full)) = [committed_line t1]
  ∧ ∃ t, five !! 1%nat = Some t
         ∧ files (snd (replay five w_disk_full))
           = {[ tracked_file := (line_of t1 +:+ "Fake ")%string ]}.
Proof.
  assert (Hrun : replay five w_disk_full
                 = (Raise OSError, snd (replay five w_disk_full)))
    by (vm_compute; reflexivity).
  rewrite Hrun at 1.
  destruct (replay_stops_at_first_failure five w_disk_full (Raise OSError)
              (snd (replay five w_disk_full)) 3 (AppendFailed tracked_file))
    as (H1 & H2 & H3 & H4 & H5 & t & H6 & H7).
  - apply disk_full_at_ok.
  - exact Hrun.
  - vm_compute. reflexivity.
  - simpl. tauto.
  - repeat (split; [assumption |]).
    exists t. split; [exact H6 |]. vm_compute. reflexivity.
Defined.

(** X6: no failure is swallowed.  When the replay returns without an
    exception, every timestamp of the schedule was appended, staged and
    committed, in order, and the push went well. *)
Theorem replay_returns_only_after_push l w w' :
  world_ok w →
  replay l w = (Return (), w') →
  events_since w w'
  = flat_map (step (deref w (os_environ w))) l
      ++ [ev_push (deref w (os_environ w)) (Exited 0)]
  ∧ commits (history w') = commits (history w) ++ map commit_for l
  ∧ files w' = write_lines (files w) l
  ∧ stdout w' = stdout w ++ map committed_line l ++ [final_line].
Proof.
  intros Hok Hrun.
  apply replay_spec in Hrun as (_ & done & rest & -> & _ & Hcase); [| assumption].
  destruct Hcase as [(t & rest' & x & tail & ap & _ & Hr & _)
                    | (-> & Hh & Hf & Hpush)]; [discriminate |].
  rewrite app_nil_r in *.
  destruct Hpush as [(Hp & _ & Ho) | (_ & Hr & _)]; [| discriminate].
  rewrite Hp in Hh.
  split; [apply events_since_app; assumption |].
  split; [| split; assumption].
  rewrite Hh, !commits_app, commits_steps, commits_push, app_nil_r. reflexivity.
Qed.

Lemma replay_returns_only_after_push_witness :
  events_since w_fine (snd (replay five w_fine))
  = flat_map (step home_env) five ++ [ev_push home_env (Exited 0)]
  ∧ commits (history (snd (replay five w_fine))) = map commit_for five
  ∧ files (snd (replay five w_fine)) = write_lines ∅ five
  ∧ stdout (snd (replay five w_fine)) = map committed_line five ++ [final_line].
Proof.
  apply (replay_returns_only_after_push five w_fine (snd (replay five w_fine))).
  - apply desk_ok.
  - vm_compute. reflexivity.
Defined.

(** X7: the progress lines tell how far the run got, in every outcome.
    The commits made are those of a prefix of the schedule, and the lines
    printed are one "Committed: ..." line for each of these commits, in the
    same order, followed by the final line exactly when the replay returns;
    it returns only with the whole schedule committed. *)
Theorem replay_reports_each_commit l w r w' :
  world_ok w →
  replay l w = (r, w') →
  ∃ done,
    done `prefix_of` l
    ∧ commits (history w') = commits (history w) ++ map commit_for done
    ∧ stdout w' = stdout w ++ map committed_line done
                    ++ match r with Return _ => [final_line] | Raise _ => [] end
    ∧ (r = Return () → done = l).
Proof.
  intros Hok Hrun.
  apply replay_spec in Hrun as (_ & done & rest & -> & _ & Hcase); [| assumption].
  exists done. split; [exists rest; reflexivity |].
  destruct Hcase as [(t & rest' & x & tail & ap & -> & -> & Hab & Hh & Hf & Ho)
                    | (-> & Hh & Hf & Hpush)].
  - split.
    { rewrite Hh, !commits_app, commits_steps, (commits_aborted _ _ _ _ _ _ _ Hab).
      rewrite app_nil_r. reflexivity. }
    split; [rewrite app_nil_r; assumption | discriminate].
  - rewrite app_nil_r in *. split.
    { rewrite Hh, !commits_app, commits_steps, commits_push, app_nil_r.
      reflexivity. }
    split; [| reflexivity].
    destruct Hpush as [(_ & -> & Ho) | (_ & -> & Ho)];
      [assumption | rewrite app_nil_r; assumption].
Qed.

Lemma replay_reports_each_commit_witness :
  ∃ done,
    done `prefix_of` five
    ∧ commits (history (snd (replay five w_commit_fails)))
      = commits (history w_commit_fails) ++ map commit_for done
    ∧ stdout (snd (replay five w_commit_fails))
      = stdout w_commit_fails ++ map committed_line done ++ []
    ∧ (Raise CalledProcessError = Return () → done = five).
Proof.
  apply (replay_reports_each_commit five w_commit_fails
           (Raise CalledProcessError) (snd (replay five w_commit_fails))).
  - apply desk_ok.
  - vm_compute. reflexivity.
Defined.

(** ** [main] as a whole *)

Lemma commits_check E st : commits [ev_check E st] = [].
Proof. destruct st as [[| p | p] |]; reflexivity. Qed.

(** The three ways [main] goes on after the check. *)
Lemma main_spec w :
  let n := length (history w) in
  let E := deref w (os_environ w) in
  main w =
    match tool w n with
    | Exited 0 =>
        match generate_commit_dates (date 2024 6 1) (clock w) (random w) with
        | (Return l, st') => replay l (checked w st' (length l))
        | (Raise e, st') =>
            (Raise e,
             set_random st' (set_history (history w ++ [ev_check E (Exited 0)]) w))
        end
    | Exited c =>
        (Return (),
         set_stdout
           (stdout w ++ ["Error: This script must be run inside a Git repository."%string])
           (set_history (history w ++ [ev_check E (Exited c)]) w))
    | NoSuchProgram =>
        (Raise FileNotFoundError,
         set_history (history w ++ [ev_check E NoSuchProgram]) w)
    end.
Proof.
  intros n E. unfold main, bind, try, subprocess_run. simpl. fold n E.
  destruct (tool w n) as [[| p | p] |]; try reflexivity.
  unfold zoom, datetime_now, read. simpl.
  destruct (generate_commit_dates (date 2024 6 1) (clock w) (random w))
    as [[l | e] st']; reflexivity.
Qed.

Lemma checked_ok w st' count : world_ok w → world_ok (checked w st' count).
Proof. intros H. exact H. Qed.

Lemma events_since_trans w w1 w' new :
  history w1 = history w ++ new →
  history w' = history w1 ++ events_since w1 w' →
  events_since w w' = new ++ events_since w1 w'.
Proof.
  intros H1 H2. unfold events_since at 1.
  rewrite H2, H1, <- app_assoc. apply drop_app_length.
Qed.

(** The history only grows during the replay. *)
Lemma replay_history l w r w' :
  world_ok w → replay l w = (r, w') →
  history w' = history w ++ events_since w w'.
Proof.
  intros Hok Hrun.
  apply replay_spec in Hrun as (_ & done & rest & -> & _ & Hcase); [| assumption].
  destruct Hcase as [(t & rest' & x & tail & ap & _ & _ & _ & Hh & _)
                    | (_ & Hh & _)];
    rewrite (events_since_app w w' _ Hh); exact Hh.
Qed.

(** X8: the check of the working directory only handles a non-zero exit
    status.  When the tool cannot be started at all, [main] prints no
    message of its own: [FileNotFoundError] leaves [main], with nothing
    written, committed or pushed. *)
Theorem main_without_tool w :
  tool w (length (history w)) = NoSuchProgram →
  ∃ w',
    main w = (Raise FileNotFoundError, w')
    ∧ stdout w' = stdout w
    ∧ events_since w w' = [ev_check (deref w (os_environ w)) NoSuchProgram]
    ∧ files w' = files w
    ∧ commits (history w') = commits (history w).
Proof.
  intros Htool. rewrite main_spec, Htool. eexists. split; [reflexivity |].
  simpl. split; [reflexivity |].
  split; [apply events_since_app; reflexivity |].
  split; [reflexivity |].
  rewrite commits_app, commits_check. apply app_nil_r.
Qed.

Lemma main_without_tool_witness :
  ∃ w',
    main w_no_git = (Raise FileNotFoundError, w')
    ∧ stdout w' = []
    ∧ events_since w_no_git w' = [ev_check home_env NoSuchProgram]
    ∧ files w' = ∅
    ∧ commits (history w') = [].
Proof.
  apply (main_without_tool w_no_git). vm_compute. reflexivity.
Defined.

Lemma generate_nothing start_date end_date st :
  dt_date end_date ≤ start_date →
  generate_commit_dates start_date end_date st = (Return [], st).
Proof.
  intros Hge. unfold generate_commit_dates, bind, ret.
  rewrite weekly_loop_turn.
  destruct (start_date <? dt_date end_date) eqn:Hlt;
    [apply Z.ltb_lt in Hlt; lia | reflexivity].
Qed.

Lemma replay_nil w :
  let st := tool w (length (history w)) in
  let E := deref w (os_environ w) in
  replay [] w
  = if decide (st = Exited 0)
    then (Return (),
          set_stdout (stdout w ++ [final_line])
            (set_history (history w ++ [ev_push E st]) w))
    else (Raise (exn_of st), set_history (history w ++ [ev_push E st]) w).
Proof.
  intros st E. unfold replay, bind. simpl for_each. unfold ret.
  rewrite subprocess_run_spec. fold st.
  destruct (decide (st = Exited 0)); reflexivity.
Qed.

(** X9: an empty schedule is still pushed.  When the check goes well and
    the present day is not after 2024-06-01, [main] announces 0 commits,
    writes and commits nothing, and runs the push all the same; the
    outcome of the run is the outcome of that push. *)
Theorem main_empty_schedule w :
  tool w (length (history w)) = Exited 0 →
  dt_date (clock w) ≤ date 2024 6 1 →
  let E := deref w (os_environ w) in
  let pushed := tool w (S (length (history w))) in
  ∃ w',
    main w = (if decide (pushed = Exited 0) then Return ()
              else Raise (exn_of pushed), w')
    ∧ events_since w w' = [ev_check E (Exited 0); ev_push E pushed]
    ∧ files w' = files w
    ∧ commits (history w') = commits (history w)
    ∧ random w' = random w
    ∧ stdout w' = stdout w ++ [announcement 0 (dt_date (clock w))]
                    ++ (if decide (pushed = Exited 0) then [final_line] else []).
Proof.
  intros Htool Hday E pushed.
  rewrite main_spec, Htool, generate_nothing by assumption.
  rewrite replay_nil.
  cbn [checked history tool set_stdout set_random set_history length].
  rewrite length_app, Nat.add_1_r. cbn [length]. fold pushed.
  assert (Hcommits : ∀ st, commits ((history w ++ [ev_check E (Exited 0)])
                                    ++ [ev_push E st]) = commits (history w)).
  { intros st. rewrite !commits_app, commits_push, commits_check, !app_nil_r.
    reflexivity. }
  destruct (decide (pushed = Exited 0)) as [Hp | Hp];
    eexists; (split; [reflexivity |]);
    (split; [apply events_since_app; cbn; rewrite <- app_assoc; reflexivity |]);
    (split; [reflexivity |]);
    (split; [apply Hcommits |]);
    (split; [reflexivity |]);
    cbn; rewrite <- ?app_assoc, ?app_nil_r; reflexivity.
Qed.

Lemma main_empty_schedule_witness :
  ∃ w',
    main (w_too_early (fails_at 1 (Exited 1)))
    = (if decide (Exited 1 = Exited 0) then Return ()
       else Raise (exn_of (Exited 1)), w')
    ∧ events_since (w_too_early (fails_at 1 (Exited 1))) w'
      = [ev_check home_env (Exited 0); ev_push home_env (Exited 1)]
    ∧ files w' = ∅
    ∧ commits (history w') = []
    ∧ random w' = varied_tape
    ∧ stdout w'
      = [] ++ [announcement 0 (date 2024 5 20)]
           ++ (if decide (Exited 1 = Exited 0) then [final_line] else []).
Proof.
  apply (main_empty_schedule (w_too_early (fails_at 1 (Exited 1)))).
  - vm_compute. reflexivity.
  - vm_compute. discriminate.
Defined.

Lemma allowed_steps E l : Forall allowed_event (flat_map (step E) l).
Proof.
  induction l as [| t l IH]; simpl; [constructor |].
  constructor; [reflexivity |].
  constructor; [right; left; reflexivity |].
  constructor; [| assumption].
  right. right. right. eexists. reflexivity.
Qed.

Lemma allowed_aborted w n E t tail e appended :
  aborted w n E t tail e appended → Forall allowed_event tail.
Proof.
  assert (Hstage : ∀ st, allowed_event (ev_stage E st))
    by (intros st; right; left; reflexivity).
  assert (Hcommit : ∀ st, allowed_event (ev_commit E t st))
    by (intros st; right; right; right; eexists; reflexivity).
  assert (Happend : allowed_event (ev_append t)) by reflexivity.
  intros Hab. destruct Hab.
  - constructor; [reflexivity | constructor].
  - constructor; [exact Happend |]. constructor; [apply Hstage | constructor].
  - constructor; [exact Happend |]. constructor; [apply Hstage |].
    constructor; [apply Hcommit | constructor].
Qed.

Lemma replay_allowed l w r w' :
  world_ok w → replay l w = (r, w') →
  Forall allowed_event (events_since w w').
Proof.
  intros Hok Hrun.
  apply replay_spec in Hrun as (_ & done & rest & -> & _ & Hcase); [| assumption].
  destruct Hcase as [(t & rest' & x & tail & ap & _ & _ & Hab & Hh & _)
                    | (_ & Hh & _)];
    rewrite (events_since_app w w' _ Hh); apply Forall_app; split;
    try apply allowed_steps.
  - eapply allowed_aborted. eassumption.
  - constructor; [| constructor]. right. right. left. reflexivity.
Qed.

(** The events of [main]: the check, then those of the replay if any. *)
Lemma main_events w :
  world_ok w →
  events_since w (snd (main w))
  = ev_check (deref w (os_environ w)) (tool w (length (history w)))
    :: match tool w (length (history w)),
             generate_commit_dates (date 2024 6 1) (clock w) (random w) with
       | Exited 0, (Return l, st') =>
           events_since (checked w st' (length l))
             (snd (replay l (checked w st' (length l))))
       | _, _ => []
       end.
Proof.
  intros Hok. rewrite main_spec.
  destruct (tool w (length (history w))) as [[| p | p] |];
    try (apply events_since_app; reflexivity).
  destruct (generate_commit_dates (date 2024 6 1) (clock w) (random w))
    as [[l | e] st']; [| apply events_since_app; reflexivity].
  destruct (replay l (checked w st' (length l))) as [r w'] eqn:Hrun.
  apply (events_since_trans w (checked w st' (length l)) w'
           [ev_check (deref w (os_environ w)) (Exited 0)]);
    [reflexivity |].
  eapply replay_history; [| exact Hrun]. apply checked_ok. assumption.
Qed.

(** X10: what [main] does to the outside, in every run: it runs
    [git rev-parse --is-inside-work-tree], [git add dummy.txt],
    [git commit --allow-empty -m ...] and [git push], and it appends to
    dummy.txt.  It runs no other command and opens no other file. *)
Theorem main_only_runs_the_tool w :
  world_ok w →
  Forall allowed_event (events_since w (snd (main w))).
Proof.
  intros Hok. rewrite main_events by assumption.
  constructor; [left; reflexivity |].
  destruct (tool w (length (history w))) as [[| p | p] |]; try constructor.
  destruct (generate_commit_dates (date 2024 6 1) (clock w) (random w))
    as [[l | e] st']; [| constructor].
  destruct (replay l (checked w st' (length l))) as [r w'] eqn:Hrun.
  eapply replay_allowed; [| exact Hrun]. apply checked_ok. assumption.
Qed.

Lemma main_only_runs_the_tool_witness :
  Forall allowed_event (events_since w_fine (snd (main w_fine)))
  ∧ Forall allowed_event
      (events_since w_main_disk_full (snd (main w_main_disk_full))).
Proof.
  split; apply main_only_runs_the_tool;
    [apply desk_ok | apply disk_full_at_ok].
Defined.

Lemma string_app_assoc (s1 s2 s3 : string) :
  ((s1 +:+ s2) +:+ s3 = s1 +:+ (s2 +:+ s3))%string.
Proof.
  induction s1 as [| c s1 IH]; [reflexivity |].
  change (String c ((s1 +:+ s2) +:+ s3) = String c (s1 +:+ (s2 +:+ s3)))%string.
  f_equal. exact IH.
Qed.

Lemma string_app_nil_r (s : string) : (s +:+ "" = s)%string.
Proof.
  induction s as [| c s IH]; [reflexivity |].
  change (String c (s +:+ "") = String c s)%string.
  f_equal. exact IH.
Qed.

Lemma write_lines_other f ts name :
  name ≠ tracked_file → write_lines f ts !! name = f !! name.
Proof.
  intros Hne. revert f. induction ts as [| t ts IH]; intros f; [reflexivity |].
  simpl. rewrite IH. unfold write_line. apply lookup_insert_ne. congruence.
Qed.

Lemma write_lines_contents f ts :
  tracked_contents (write_lines f ts)
  = (tracked_contents f +:+ lines_of ts)%string.
Proof.
  revert f. induction ts as [| t ts IH]; intros f; simpl.
  - symmetry. apply string_app_nil_r.
  - rewrite IH. unfold tracked_contents at 1, write_line.
    rewrite lookup_insert_eq. simpl. apply string_app_assoc.
Qed.

Lemma tear_other w n f t name :
  name ≠ tracked_file → tear w n f t !! name = f !! name.
Proof.
  intros Hne. unfold tear, torn_append.
  destruct (torn w n); [| reflexivity].
  apply lookup_insert_ne. congruence.
Qed.

Lemma tear_contents w n f t :
  tracked_contents (tear w n f t)
  = (tracked_contents f +:+ torn_text (torn w n) (line_of t))%string.
Proof.
  unfold tear, torn_append, torn_text, tracked_contents.
  destruct (torn w n) as [m |].
  - rewrite lookup_insert_eq. reflexivity.
  - symmetry. apply string_app_nil_r.
Qed.

(** The directory after a replay, in every outcome. *)
Lemma replay_files l w r w' :
  world_ok w → replay l w = (r, w') →
  ∃ ts part,
    ts `prefix_of` l
    ∧ (∀ name, name ≠ tracked_file → files w' !! name = files w !! name)
    ∧ tracked_contents (files w')
      = (tracked_contents (files w) +:+ lines_of ts +:+ part)%string
    ∧ (part = EmptyString
       ∨ (r = Raise OSError
          ∧ ∃ t m, l !! length ts = Some t ∧ part = substring 0 m (line_of t))).
Proof.
  intros Hok Hrun.
  apply replay_spec in Hrun as (_ & done & rest & -> & _ & Hcase); [| assumption].
  destruct Hcase as [(t & rest' & x & tail & ap & -> & -> & Hab & _ & Hf & _)
                    | (-> & _ & Hf & _)].
  - destruct ap.
    + exists (done ++ [t]), EmptyString.
      split; [exists rest'; rewrite <- app_assoc; reflexivity |].
      rewrite Hf, <- write_lines_snoc.
      split; [intros name Hne; apply write_lines_other; assumption |].
      split; [| left; reflexivity].
      rewrite write_lines_contents, string_app_nil_r. reflexivity.
    + set (k := (length (history w) + 3 * length done)%nat) in *.
      exists done, (torn_text (torn w k) (line_of t)).
      split; [exists (t :: rest'); reflexivity |].
      rewrite Hf.
      split; [intros name Hne; rewrite tear_other by assumption;
              apply write_lines_other; assumption |].
      split; [rewrite tear_contents, write_lines_contents;
              apply string_app_assoc |].
      unfold torn_text. destruct (torn w k) as [m |]; [| left; reflexivity].
      right. split; [inversion Hab; reflexivity |].
      exists t, m. split; [apply list_lookup_middle; reflexivity | reflexivity].
  - exists (done ++ []), EmptyString. split; [reflexivity |].
    rewrite Hf, app_nil_r.
    split; [intros name Hne; apply write_lines_other; assumption |].
    split; [| left; reflexivity].
    rewrite write_lines_contents, string_app_nil_r. reflexivity.
Qed.

(** X11: the only file [main] touches is dummy.txt, and it only appends to
    it.  In every run, also one that fails, every other file of the
    directory is as before, and the new contents of dummy.txt are the old
    contents, followed by the whole lines of the first timestamps of the
    schedule that was drawn, followed, when the run ends with the
    [OSError] of an append, by whatever part of the next timestamp's line
    that append wrote.  Nothing is truncated, rewritten or taken back. *)
Theorem main_appends_only w :
  world_ok w →
  ∃ ts part,
    (∀ name, name ≠ tracked_file →
             files (snd (main w)) !! name = files w !! name)
    ∧ tracked_contents (files (snd (main w)))
      = (tracked_contents (files w) +:+ lines_of ts +:+ part)%string
    ∧ (∀ l st',
         generate_commit_dates (date 2024 6 1) (clock w) (random w) = (Return l, st') →
         ts `prefix_of` l)
    ∧ (part = EmptyString
       ∨ (fst (main w) = Raise OSError
          ∧ ∃ l st' t m,
              generate_commit_dates (date 2024 6 1) (clock w) (random w)
              = (Return l, st')
              ∧ l !! length ts = Some t
              ∧ part = substring 0 m (line_of t))).
Proof.
  intros Hok. rewrite main_spec.
  assert (Hnone : ∃ ts part,
            (∀ name, name ≠ tracked_file → files w !! name = files w !! name)
            ∧ tracked_contents (files w)
              = (tracked_contents (files w) +:+ lines_of ts +:+ part)%string
            ∧ (∀ l st',
                 generate_commit_dates (date 2024 6 1) (clock w) (random w)
                 = (Return l, st') → ts `prefix_of` l)
            ∧ part = EmptyString).
  { exists [], EmptyString. split; [reflexivity |]. split.
    - simpl. rewrite string_app_nil_r. reflexivity.
    - split; [intros l st' _; apply prefix_nil | reflexivity]. }
  assert (Hstay : ∀ (r : result unit) (w0 : world),
            files w0 = files w →
            ∃ ts part,
              (∀ name, name ≠ tracked_file →
                       files (snd (r, w0)) !! name = files w !! name)
              ∧ tracked_contents (files (snd (r, w0)))
                = (tracked_contents (files w) +:+ lines_of ts +:+ part)%string
              ∧ (∀ l st',
                   generate_commit_dates (date 2024 6 1) (clock w) (random w)
                   = (Return l, st') → ts `prefix_of` l)
              ∧ (part = EmptyString
                 ∨ (fst (r, w0) = Raise OSError
                    ∧ ∃ l st' t m,
                        generate_commit_dates (date 2024 6 1) (clock w) (random w)
                        = (Return l, st')
                        ∧ l !! length ts = Some t
                        ∧ part = substring 0 m (line_of t)))).
  { intros r w0 Hw0. destruct Hnone as (ts & part & H1 & H2 & H3 & H4).
    exists ts, part. simpl. rewrite Hw0.
    split; [assumption |]. split; [assumption |].
    split; [assumption | left; assumption]. }
  destruct (tool w (length (history w))) as [[| p | p] |];
    try (apply Hstay; reflexivity).
  destruct (generate_commit_dates (date 2024 6 1) (clock w) (random w))
    as [[l | e] st'] eqn:Hgen; [| apply Hstay; reflexivity].
  destruct (replay l (checked w st' (length l))) as [r w'] eqn:Hrun.
  apply replay_files in Hrun as (ts & part & Hpre & Hother & Hcont & Hpart);
    [| apply checked_ok; assumption].
  change (files (checked w st' (length l))) with (files w) in Hother, Hcont.
  exists ts, part. simpl.
  split; [assumption |]. split; [assumption |].
  split; [intros l0 st0 [= <- <-]; assumption |].
  destruct Hpart as [-> | (-> & t & m & Ht & ->)]; [left; reflexivity |].
  right. split; [reflexivity |]. exists l, st', t, m.
  split; [reflexivity |]. split; [assumption | reflexivity].
Qed.

(** A run of [main] in which the append of the 2nd timestamp fails after
    five characters: [OSError] leaves [main], and dummy.txt has the line of
    the 1st timestamp followed by "Fake ". *)
Lemma main_appends_only_witness :
  (∃ ts part,
     (∀ name, name ≠ tracked_file →
              files (snd (main w_main_disk_full)) !! name
              = files w_main_disk_full !! name)
     ∧ tracked_contents (files (snd (main w_main_disk_full)))
       = (tracked_contents (files w_main_disk_full) +:+ lines_of ts +:+ part)%string
     ∧ (∀ l st',
          generate_commit_dates (date 2024 6 1) (clock w_main_disk_full)
            (random w_main_disk_full) = (Return l, st') →
          ts `prefix_of` l)
     ∧ (part = EmptyString
        ∨ (fst (main w_main_disk_full) = Raise OSError
           ∧ ∃ l st' t m,
               generate_commit_dates (date 2024 6 1) (clock w_main_disk_full)
                 (random w_main_disk_full) = (Return l, st')
               ∧ l !! length ts = Some t
               ∧ part = substring 0 m (line_of t))))
  ∧ fst (main w_main_disk_full) = Raise OSError
  ∧ tracked_contents (files (snd (main w_main_disk_full)))
    = (line_of (combine (date 2024 6 4) 12 46 31) +:+ "Fake ")%string.
Proof.
  split; [apply main_appends_only; apply disk_full_at_ok |].
  vm_compute. split; reflexivity.
Defined.

Lemma valid_start_of_main : MINORDINAL ≤ date 2024 6 1.
Proof. vm_compute. discriminate. Qed.

(** X12: a run of [main] in which everything goes well.  The schedule [l]
    drawn from 2024-06-01 to the present moment is announced with its
    length, then its timestamps are committed in non-decreasing order, one
    commit per timestamp with both dates equal to it, each with its
    progress line, before the single push and the final line. *)
Theorem main_commits_the_schedule w l st' :
  world_ok w →
  tool w (length (history w)) = Exited 0 →
  generate_commit_dates (date 2024 6 1) (clock w) (random w) = (Return l, st') →
  (∀ j, (j < length l)%nat → completes w (S (length (history w)) + 3 * j)) →
  tool w (S (length (history w)) + 3 * length l) = Exited 0 →
  let E := deref w (os_environ w) in
  ∃ w',
    main w = (Return (), w')
    ∧ Sorted datetime_le l
    ∧ events_since w w'
      = ev_check E (Exited 0) :: flat_map (step E) l ++ [ev_push E (Exited 0)]
    ∧ commits (history w') = commits (history w) ++ map commit_for l
    ∧ files w' = write_lines (files w) l
    ∧ stdout w' = stdout w ++ [announcement (length l) (dt_date (clock w))]
                    ++ map committed_line l ++ [final_line]
    ∧ random w' = st'.
Proof.
  intros Hok Htool Hgen Hall Hpush E.
  rewrite main_spec, Htool, Hgen.
  set (w1 := checked w st' (length l)).
  assert (Hn1 : length (history w1) = S (length (history w))).
  { unfold w1, checked. cbn [history set_stdout set_random set_history].
    rewrite length_app, Nat.add_1_r. reflexivity. }
  destruct (replay l w1) as [r w'] eqn:Hrun.
  pose proof Hrun as Hspec.
  apply replay_spec in Hspec as (Hsame & done & rest & Hl & _ & Hcase);
    [| apply checked_ok; assumption].
  change (deref w1 (os_environ w1)) with E in Hcase.
  rewrite Hn1 in Hcase. change (tool w1) with (tool w) in Hcase.
  destruct Hcase as [(t & rest' & x & tail & ap & -> & _ & Hab & _)
                    | (-> & Hh & Hf & Hfinal)].
  { exfalso. eapply (not_aborted_completes w1); [| exact Hab].
    apply (Hall (length done)). rewrite Hl, length_app. simpl. lia. }
  rewrite Hpush in Hh, Hfinal.
  destruct Hfinal as [(_ & -> & Ho) | (Hne & _)]; [| congruence].
  exists w'. split; [reflexivity |].
  split.
  { apply generate_commit_dates_spec in Hgen as (_ & Hs & _);
      [assumption | apply valid_start_of_main]. }
  split.
  { unfold events_since. rewrite Hh. unfold w1, checked.
    cbn [history set_stdout set_random set_history].
    rewrite <- app_assoc. rewrite drop_app_length. reflexivity. }
  split.
  { rewrite Hh. unfold w1, checked.
    cbn [history set_stdout set_random set_history].
    rewrite !commits_app, commits_check, commits_steps, commits_push, !app_nil_r.
    reflexivity. }
  split; [exact Hf |].
  split.
  { rewrite Ho. unfold w1, checked. cbn [stdout set_stdout].
    rewrite <- app_assoc. reflexivity. }
  destruct Hsame as (_ & _ & _ & Hr & _). rewrite Hr. reflexivity.
Qed.

Lemma one_week_ok : world_ok w_one_week.
Proof. unfold world_ok. simpl. rewrite lookup_singleton_eq. eexists. reflexivity. Qed.

Lemma main_commits_the_schedule_witness :
  ∃ w',
    main w_one_week = (Return (), w')
    ∧ Sorted datetime_le week_schedule
    ∧ events_since w_one_week w'
      = ev_check home_env (Exited 0)
          :: flat_map (step home_env) week_schedule
               ++ [ev_push home_env (Exited 0)]
    ∧ commits (history w') = map commit_for week_schedule
    ∧ files w' = write_lines ∅ week_schedule
    ∧ stdout w' = [announcement 3 (date 2024 6 8)]
                    ++ map committed_line week_schedule ++ [final_line].
Proof.
  destruct (main_commits_the_schedule w_one_week week_schedule
              (mk_rng (tape varied_tape) 13)) as (w' & H).
  - apply one_week_ok.
  - reflexivity.
  - vm_compute. reflexivity.
  - intros j Hj. unfold completes. repeat split; reflexivity.
  - reflexivity.
  - exists w'. destruct H as (H1 & H2 & H3 & H4 & H5 & H6 & _).
    repeat split; assumption.
Defined.
